(** * Raydium swap client: a shallow embedding of [raydium/swap.py]

    The client is a thin layer over three remote HTTP services.  Its own
    logic is request construction, validation of the response envelope and
    a price-impact threshold.  The embedding keeps the Python values the
    code manipulates (decoded JSON, [False], [None]), the exceptions it
    raises and catches, and the effects it performs (HTTP requests, log
    records, one [print]) recorded in a trace.  The remote services are an
    oracle that answers each request from the history so far. *)

From Stdlib Require Import ZArith List String Ascii Bool Lia.
From Stdlib Require Import PrimFloat FloatOps SpecFloat FloatAxioms.
Import ListNotations.

Local Open Scope string_scope.
Local Open Scope Z_scope.

(** ** Python values *)

(** The values that flow through the client: what [json] decoding yields
    (null, booleans, integers, floats, strings, arrays, objects) and the
    client instance itself, which a bound-method call passes as first
    argument.  An object is an association list in insertion order. *)
#[warnings="-register-all"]
Inductive value : Type :=
| VNone
| VBool (b : bool)
| VInt (z : Z)
| VFloat (f : float)
| VStr (s : string)
| VList (l : list value)
| VDict (d : list (string * value))
| VSelf.

(** The exception classes that can arise in the client. *)
Inductive exn : Type :=
| KeyError
| IndexError
| TypeError
| ValueError
| OverflowError
| ZeroDivisionError
| JSONDecodeError
| RequestException.

(** Outcome of an expression: a value, or a raised exception. *)
Inductive res (A : Type) : Type :=
| Ret (a : A)
| Raise (e : exn).
Arguments Ret {A} a.
Arguments Raise {A} e.

(** Truth value testing, as [not x] and [if x] use it. *)
Definition truthy (v : value) : bool :=
  match v with
  | VNone => false
  | VBool b => b
  | VInt z => negb (z =? 0)
  | VFloat f => negb (PrimFloat.eqb f PrimFloat.zero)
  | VStr s => negb (String.eqb s "")
  | VList l => match l with [] => false | _ => true end
  | VDict d => match d with [] => false | _ => true end
  | VSelf => true
  end.

(** [x is None]. *)
Definition is_None (v : value) : bool :=
  match v with VNone => true | _ => false end.

Fixpoint lookup (k : string) (d : list (string * value)) : option value :=
  match d with
  | [] => None
  | (k', v) :: d' => if String.eqb k k' then Some v else lookup k d'
  end.

(** Sequence indexing with Python's negative indices. *)
Definition index {A : Type} (l : list A) (i : Z) : res A :=
  let n := Z.of_nat (List.length l) in
  let j := if i <? 0 then i + n else i in
  if (j <? 0) || (n <=? j) then Raise IndexError
  else match nth_error l (Z.to_nat j) with
       | Some a => Ret a
       | None => Raise IndexError
       end.

Definition chars (s : string) : list value :=
  List.map (fun c => VStr (String c EmptyString)) (list_ascii_of_string s).

(** Subscription [v[k]].  Decoded JSON objects have string keys only, so
    any other hashable key is absent; lists and dicts are unhashable.
    Strings are indexed per byte here (exact for ASCII text). *)
Definition getitem (v k : value) : res value :=
  match v with
  | VDict d =>
      match k with
      | VStr s => match lookup s d with Some x => Ret x | None => Raise KeyError end
      | VList _ | VDict _ => Raise TypeError
      | _ => Raise KeyError
      end
  | VList l =>
      match k with
      | VInt i => index l i
      | VBool b => index l (if b then 1 else 0)
      | _ => Raise TypeError
      end
  | VStr s =>
      match k with
      | VInt i => index (chars s) i
      | VBool b => index (chars s) (if b then 1 else 0)
      | _ => Raise TypeError
      end
  | _ => Raise TypeError
  end.

(** What a [for] loop iterates over. *)
Definition py_iter (v : value) : res (list value) :=
  match v with
  | VList l => Ret l
  | VDict d => Ret (List.map (fun kv => VStr (fst kv)) d)
  | VStr s => Ret (chars s)
  | _ => Raise TypeError
  end.

(** [sep.join(items)]: every item has to be a [str]. *)
Fixpoint strings_of (items : list value) : res (list string) :=
  match items with
  | [] => Ret []
  | VStr s :: rest =>
      match strings_of rest with
      | Ret ss => Ret (s :: ss)
      | Raise e => Raise e
      end
  | _ :: _ => Raise TypeError
  end.

Definition py_join (sep : string) (items : list value) : res string :=
  match strings_of items with
  | Ret ss => Ret (String.concat sep ss)
  | Raise e => Raise e
  end.

(** ** Numbers *)

(** [float(n)] for an [int]: round to nearest, ties to even; an integer
    beyond the binary64 range raises. *)
Definition float_of_Z (z : Z) : res float :=
  let f := SF2Prim (binary_normalize prec emax z 0 false) in
  if PrimFloat.is_infinity f then Raise OverflowError else Ret f.

(** [n > m] for an [int] [n] and a [float] [m]: Python compares the exact
    mathematical values. *)
Definition Z_gt_float (z : Z) (m : float) : bool :=
  match Prim2SF m with
  | S754_zero _ => 0 <? z
  | S754_infinity s => s
  | S754_nan => false
  | S754_finite s mant e =>
      let sm := if s then Z.neg mant else Z.pos mant in
      if 0 <=? e then sm * 2 ^ e <? z else sm <? z * 2 ^ (- e)
  end.

(** [v > m] where [m] is a [float]. *)
Definition py_gt (v : value) (m : float) : res bool :=
  match v with
  | VFloat f => Ret (PrimFloat.ltb m f)
  | VInt z => Ret (Z_gt_float z m)
  | VBool b => Ret (Z_gt_float (if b then 1 else 0) m)
  | _ => Raise TypeError
  end.

(** [a / b] on floats: a zero divisor raises, anything else is the IEEE
    quotient. *)
Definition py_truediv (a b : float) : res float :=
  if PrimFloat.eqb b PrimFloat.zero then Raise ZeroDivisionError
  else Ret (PrimFloat.div a b).

(** ** Effects *)

Inductive http_method : Type := GET | POST.

Record Request : Type := mkRequest {
  req_method : http_method;
  req_url : string;
  req_params : option (list (string * value));
  req_json : option value;
  req_timeout : option Z
}.

(** What the client reads of a [requests.Response]: the status code and
    the body as [.json()] decodes it ([None] when it is not JSON). *)
Record Response : Type := mkResponse {
  status_code : Z;
  json : option value
}.

Inductive outcome : Type :=
| Responded (r : Response)
| Failed.

(** The log records the client emits. *)
Inductive log_record : Type :=
| ErrOperation (op : string) (e : exn)
| ErrStatusCode (code : Z)
| ErrUnsuccessful (id : value)
| WarnPriceImpact (pi : value) (limit : float).

Inductive event : Type :=
| Issued (r : Request)
| Logged (l : log_record)
| Printed (v : value).

(** The trace holds the events of a run, newest first. *)
Definition trace : Type := list event.

(** The remote side: its answer to a request may depend on the history. *)
Definition Network : Type := trace -> Request -> outcome.

(** Computations: they read and extend the trace and return or raise. *)
Definition M (A : Type) : Type := trace -> res A * trace.

Definition ret {A : Type} (a : A) : M A := fun tr => (Ret a, tr).

Definition raise {A : Type} (e : exn) : M A := fun tr => (Raise e, tr).

Definition lift {A : Type} (r : res A) : M A := fun tr => (r, tr).

Definition bind {A B : Type} (m : M A) (k : A -> M B) : M B :=
  fun tr =>
    match m tr with
    | (Ret a, tr') => k a tr'
    | (Raise e, tr') => (Raise e, tr')
    end.

(** [try: body  except Exception as e: handler e]. *)
Definition try_except {A : Type} (body : M A) (handler : exn -> M A) : M A :=
  fun tr =>
    match body tr with
    | (Ret a, tr') => (Ret a, tr')
    | (Raise e, tr') => handler e tr'
    end.

Definition emit (e : event) : M unit := fun tr => (Ret tt, e :: tr).

Definition log (l : log_record) : M unit := emit (Logged l).

Definition print (v : value) : M unit := emit (Printed v).

Declare Scope py_scope.
Delimit Scope py_scope with py.
Notation "x <- m ;; k" := (bind m (fun x => k))
  (at level 100, m at next level, right associativity) : py_scope.
Notation "m ;;; k" := (bind m (fun _ => k))
  (at level 100, right associativity) : py_scope.
Local Open Scope py_scope.

(** The requests recorded in a trace, newest first. *)
Fixpoint issued (tr : trace) : list Request :=
  match tr with
  | [] => []
  | Issued r :: tr' => r :: issued tr'
  | _ :: tr' => issued tr'
  end.

(** ** The client *)

(** The configuration [__init__] stores. *)
Record RaydiumSwap : Type := mkRaydiumSwap {
  _price_impact_max : float;
  _slippage_bps : Z;
  _timeout : Z
}.

(** [RaydiumSwap()] with the defaults of [__init__]:
    [price_impact_max = 0.1], [slippage_bps = 10], [timeout = 10]. *)
Definition default_client : RaydiumSwap :=
  mkRaydiumSwap 0x1.999999999999ap-4%float 10 10.

(** ** Sample remote services

    Concrete answers of the remote side, used to run the client. *)

(** A route hop through pool [id]. *)
Definition sample_hop (id : string) : value :=
  VDict [("poolId", VStr id); ("feeRate", VInt 1); ("feeAmount", VStr "100")].

(** A successful quote envelope. *)
Definition sample_quote (pi vin vout : value) (plan : list value) : value :=
  VDict [("id", VStr "q-1");
         ("success", VBool true);
         ("version", VStr "V1");
         ("data", VDict [("swapType", VStr "BaseIn");
                         ("inputAmount", vin);
                         ("outputAmount", vout);
                         ("priceImpactPct", pi);
                         ("routePlan", VList plan)])].

(** Quotes used in the runs below: price impact 0.15 and 0.01 against
    the default ceiling 0.1, a zero output amount, and an empty route
    plan with a zero input amount. *)
Definition quote_high : value :=
  sample_quote (VFloat 0x1.3333333333333p-3%float)
    (VInt 1000000000) (VInt 8000000)
    [sample_hop "pool-1"; sample_hop "pool-2"; sample_hop "pool-1"].

Definition quote_low : value :=
  sample_quote (VFloat 0x1.47ae147ae147bp-7%float)
    (VInt 1000000000) (VInt 8000000)
    [sample_hop "pool-1"; sample_hop "pool-2"; sample_hop "pool-1"].

Definition quote_zero_out : value :=
  sample_quote (VFloat 0x1.47ae147ae147bp-7%float)
    (VInt 1000000000) (VInt 0) [sample_hop "pool-1"].

Definition quote_empty_plan : value :=
  sample_quote (VInt 0) (VInt 0) (VInt 8000000) [].

(** A rejection envelope. *)
Definition sample_rejection : value :=
  VDict [("id", VStr "q-2"); ("success", VBool false); ("msg", VStr "ROUTE_NOT_FOUND")].

(** A service that answers every request with status 200 and body [js]. *)
Definition serve (js : value) : Network :=
  fun _ _ => Responded (mkResponse 200 (Some js)).

(** A service that answers the first request with [js] and cannot be
    reached afterwards. *)
Definition serve_once (js : value) : Network :=
  fun tr _ =>
    match issued tr with
    | [] => Responded (mkResponse 200 (Some js))
    | _ => Failed
    end.

(** No service can be reached. *)
Definition unreachable : Network := fun _ _ => Failed.

(** Endpoint values for the runs. *)
Definition sample_quote_url : string := "https://quote.example/compute/swap-base-in".
Definition sample_trx_url : string := "https://quote.example/transaction/swap-base-in".
Definition sample_data_url : string := "https://data.example".

(** Stand-ins for the address library: keys are their base58 text, the
    empty text does not parse. *)
Definition sample_from_string (s : string) : res string :=
  if String.eqb s "" then Raise ValueError else Ret s.

Definition sample_ata (wallet mint : string) : res string :=
  Ret (wallet ++ "/" ++ mint).

(** A [float] parser for [str] that accepts nothing. *)
Definition sample_float_of_str (s : string) : option float := None.

(** A quote whose price impact equals the default ceiling. *)
Definition quote_at_ceiling : value :=
  sample_quote (VFloat 0x1.999999999999ap-4%float)
    (VInt 1000000000) (VInt 8000000) [sample_hop "pool-1"].

(** A quote without amounts, whose second hop names no pool. *)
Definition quote_bare : value :=
  VDict [("id", VStr "q-3");
         ("success", VBool true);
         ("data", VDict [("priceImpactPct", VInt 0);
                         ("routePlan",
                          VList [sample_hop "pool-1";
                                 VDict [("feeRate", VInt 1)]])])].

(** A quote without a route plan, with an input amount that is no number. *)
Definition quote_no_plan : value :=
  VDict [("id", VStr "q-4");
         ("success", VBool true);
         ("data", VDict [("priceImpactPct", VInt 0);
                         ("inputAmount", VNone);
                         ("outputAmount", VInt 8000000)])].

(** Envelopes of the data service: pool metadata, fee tiers, RPC list. *)
Definition sample_pools : value :=
  VDict [("id", VStr "p-1");
         ("success", VBool true);
         ("data", VList [VDict [("id", VStr "pool-1"); ("type", VStr "Concentrated")];
                         VDict [("id", VStr "pool-2"); ("type", VStr "Standard")];
                         VDict [("id", VStr "pool-1"); ("type", VStr "Concentrated")]])].

Definition sample_fees : value :=
  VDict [("id", VStr "f-1");
         ("success", VBool true);
         ("data", VDict [("default", VDict [("vh", VInt 25216);
                                            ("h", VInt 18912);
                                            ("m", VInt 10000)])])].

Definition sample_rpcs : value :=
  VDict [("id", VStr "r-1");
         ("success", VBool true);
         ("data", VDict [("rpcs", VList [VDict [("url", VStr "https://rpc.example/");
                                                ("batch", VBool true);
                                                ("name", VStr "Triton");
                                                ("weight", VInt 100)]])])].

(** A service that answers the first request with [first] and every later
    one with [rest]. *)
Definition serve_then (first rest : value) : Network :=
  fun tr _ =>
    match issued tr with
    | [] => Responded (mkResponse 200 (Some first))
    | _ => Responded (mkResponse 200 (Some rest))
    end.

(** A service that answers the first request with [first] and every later
    one with a bare status [code]. *)
Definition serve_then_status (first : value) (code : Z) : Network :=
  fun tr _ =>
    match issued tr with
    | [] => Responded (mkResponse 200 (Some first))
    | _ => Responded (mkResponse code None)
    end.

(** A service that answers every request with a bare status [code]. *)
Definition serve_status (code : Z) : Network :=
  fun _ _ => Responded (mkResponse code None).

(** A service whose bodies are not JSON. *)
Definition serve_garbage : Network :=
  fun _ _ => Responded (mkResponse 200 None).

Section Client.

(** The endpoints of [raydium/constants.py]. *)
Variables QUOTE_API_URL TRX_API_URL DATA_BASE_URL : string.

(** [solders.pubkey.Pubkey], its parser and printer, and
    [spl.token.instructions.get_associated_token_address]: pure library
    functions; the parser and the derivation may raise. *)
Variable Pubkey : Type.
Variable Pubkey_from_string : string -> res Pubkey.
Variable Pubkey_str : Pubkey -> string.
Variable get_associated_token_address : Pubkey -> Pubkey -> res Pubkey.

(** [float(s)] for a [str]: the runtime's parser, [None] where it
    raises [ValueError]. *)
Variable float_of_str : string -> option float.

(** The remote services. *)
Variable net : Network.

(** [float(v)]. *)
Definition py_float (v : value) : res float :=
  match v with
  | VFloat f => Ret f
  | VInt z => float_of_Z z
  | VBool b => float_of_Z (if b then 1 else 0)
  | VStr s => match float_of_str s with Some f => Ret f | None => Raise ValueError end
  | _ => Raise TypeError
  end.

(** [requests.get(url, params=..., timeout=...)]: the request is
    recorded; a transport failure raises. *)
Definition requests_get (url : string) (params : option (list (string * value)))
    (timeout : option Z) : M Response :=
  fun tr =>
    let r := mkRequest GET url params None timeout in
    match net tr r with
    | Responded resp => (Ret resp, Issued r :: tr)
    | Failed => (Raise RequestException, Issued r :: tr)
    end.

(** [requests.post(url, json=..., timeout=...)]. *)
Definition requests_post (url : string) (body : value) (timeout : option Z)
    : M Response :=
  fun tr =>
    let r := mkRequest POST url None (Some body) timeout in
    match net tr r with
    | Responded resp => (Ret resp, Issued r :: tr)
    | Failed => (Raise RequestException, Issued r :: tr)
    end.

(** [resp.json()]. *)
Definition resp_json (resp : Response) : res value :=
  match json resp with
  | Some v => Ret v
  | None => Raise JSONDecodeError
  end.

(** [_response_json]: the decoded envelope of a successful response,
    [False] otherwise. *)
Definition _response_json (resp : Response) : M value :=
  if negb (status_code resp =? 200) then
    log (ErrStatusCode (status_code resp)) ;;;
    ret (VBool false)
  else
    resp_js <- lift (resp_json resp) ;;
    success <- lift (getitem resp_js (VStr "success")) ;;
    if negb (truthy success) then
      id <- lift (getitem resp_js (VStr "id")) ;;
      log (ErrUnsuccessful id) ;;;
      ret (VBool false)
    else
      ret resp_js.

(** The request [_compute_routes] sends. *)
Definition quote_request (self : RaydiumSwap) (input_mint output_mint : string)
    (amount_in : Z) : Request :=
  mkRequest GET QUOTE_API_URL
    (Some [("inputMint", VStr input_mint);
           ("outputMint", VStr output_mint);
           ("amount", VInt amount_in);
           ("slippageBps", VInt (_slippage_bps self));
           ("txVersion", VStr "V0")])
    None (Some (_timeout self)).

(** [_compute_routes]. *)
Definition _compute_routes (self : RaydiumSwap) (input_mint output_mint : string)
    (amount_in : Z) : M value :=
  try_except
    (let params :=
       [("inputMint", VStr input_mint);
        ("outputMint", VStr output_mint);
        ("amount", VInt amount_in);
        ("slippageBps", VInt (_slippage_bps self));
        ("txVersion", VStr "V0")] in
     resp <- requests_get QUOTE_API_URL (Some params) (Some (_timeout self)) ;;
     resp_js <- _response_json resp ;;
     if negb (truthy resp_js) then ret (VBool false)
     else
       data <- lift (getitem resp_js (VStr "data")) ;;
       pi <- lift (getitem data (VStr "priceImpactPct")) ;;
       above <- lift (py_gt pi (_price_impact_max self)) ;;
       (if above then log (WarnPriceImpact pi (_price_impact_max self))
        else ret tt) ;;;
       ret resp_js)
    (fun e =>
       log (ErrOperation "_compute_routes" e) ;;;
       ret VNone).

(** The body of [_unit_price_micro_lamports] once [select] is bound. *)
Definition unit_price_body (select : value) : M value :=
  let url := DATA_BASE_URL ++ "/main/auto-fee" in
  resp <- requests_get url None None ;;
  if status_code resp =? 200 then
    resp_js <- lift (resp_json resp) ;;
    success <- lift (getitem resp_js (VStr "success")) ;;
    if truthy success then
      data <- lift (getitem resp_js (VStr "data")) ;;
      dflt <- lift (getitem data (VStr "default")) ;;
      lift (getitem dflt select)
    else ret (VBool false)
  else ret (VBool false).

(** [def _unit_price_micro_lamports(select: str = "h")]: the definition
    has one parameter, with a default, and no [self].  Binding more than
    one positional argument raises [TypeError] before the body runs. *)
Definition _unit_price_micro_lamports (args : list value) : M value :=
  match args with
  | [] => unit_price_body (VStr "h")
  | [select] => unit_price_body select
  | _ => raise TypeError
  end.

(** [generate_transaction].  The call
    [self._unit_price_micro_lamports("h")] goes through the bound
    method, which passes the instance first and ["h"] second. *)
Definition generate_transaction (self : RaydiumSwap)
    (input_mint output_mint wallet_pub_key : string) (amount_in : Z) : M value :=
  try_except
    (wallet <- lift (Pubkey_from_string wallet_pub_key) ;;
     in_mint <- lift (Pubkey_from_string input_mint) ;;
     out_mint <- lift (Pubkey_from_string output_mint) ;;
     input_ata <- lift (get_associated_token_address wallet in_mint) ;;
     output_ata <- lift (get_associated_token_address wallet out_mint) ;;
     compute_resp <- _compute_routes self input_mint output_mint amount_in ;;
     if negb (truthy compute_resp) then ret (VBool false)
     else
       data <- lift (getitem compute_resp (VStr "data")) ;;
       pi <- lift (getitem data (VStr "priceImpactPct")) ;;
       above <- lift (py_gt pi (_price_impact_max self)) ;;
       if above then ret (VBool false)
       else
         fee <- _unit_price_micro_lamports [VSelf; VStr "h"] ;;
         let priority_fee := if negb (truthy fee) then VStr "15000" else fee in
         let payload :=
           VDict [("wallet", VStr (Pubkey_str wallet));
                  ("inputAccount", VStr (Pubkey_str input_ata));
                  ("outputAccount", VStr (Pubkey_str output_ata));
                  ("txVersion", VStr "V0");
                  ("wrapSol", VBool true);
                  ("unwrapSol", VBool true);
                  ("computeUnitPriceMicroLamports", priority_fee);
                  ("swapResponse", compute_resp)] in
         resp_trx <- requests_post TRX_API_URL payload (Some (_timeout self)) ;;
         resp_js <- _response_json resp_trx ;;
         if negb (truthy resp_js) then ret (VBool false)
         else
           shown <- lift (getitem resp_js (VStr "data")) ;;
           print shown ;;;
           data' <- lift (getitem resp_js (VStr "data")) ;;
           lift (getitem data' (VStr "transaction")))
    (fun e =>
       log (ErrOperation "generate_transaction" e) ;;;
       ret VNone).

(** [get_price]. *)
Definition get_price (self : RaydiumSwap) (input_mint output_mint : string)
    (amount_in : Z) : M value :=
  try_except
    (resp_js <- _compute_routes self input_mint output_mint amount_in ;;
     if negb (truthy resp_js) then ret (VBool false)
     else
       data <- lift (getitem resp_js (VStr "data")) ;;
       if is_None data then ret (VBool false)
       else
         d <- lift (getitem resp_js (VStr "data")) ;;
         in_raw <- lift (getitem d (VStr "inputAmount")) ;;
         in_amm <- lift (py_float in_raw) ;;
         out_raw <- lift (getitem d (VStr "outputAmount")) ;;
         out_amm <- lift (py_float out_raw) ;;
         price <- lift (py_truediv in_amm out_amm) ;;
         ret (VFloat price))
    (fun e =>
       log (ErrOperation "get_price" e) ;;;
       ret VNone).

(** [get_rpcs]. *)
Definition get_rpcs (self : RaydiumSwap) : M value :=
  try_except
    (let url := DATA_BASE_URL ++ "/main/rpcs" in
     resp <- requests_get url None None ;;
     resp_js <- _response_json resp ;;
     if negb (truthy resp_js) then ret (VBool false)
     else
       data <- lift (getitem resp_js (VStr "data")) ;;
       lift (getitem data (VStr "rpcs")))
    (fun e =>
       log (ErrOperation "get_rpcs" e) ;;;
       ret VNone).

(** [get_routes]. *)
Definition get_routes (self : RaydiumSwap) (input_mint output_mint : string)
    (amount_in : Z) : M value :=
  try_except
    (resp_js <- _compute_routes self input_mint output_mint amount_in ;;
     if negb (truthy resp_js) then ret (VBool false)
     else
       data <- lift (getitem resp_js (VStr "data")) ;;
       if is_None data then ret (VBool false)
       else
         data' <- lift (getitem resp_js (VStr "data")) ;;
         lift (getitem data' (VStr "routePlan")))
    (fun e =>
       log (ErrOperation "get_routes" e) ;;;
       ret VNone).

(** The loop of [get_pools_info]:
    [for route in routes: ids.append(route["poolId"])]. *)
Fixpoint collect_pool_ids (routes : list value) (ids : list value)
    : res (list value) :=
  match routes with
  | [] => Ret ids
  | route :: rest =>
      match getitem route (VStr "poolId") with
      | Ret id => collect_pool_ids rest (ids ++ [id])
      | Raise e => Raise e
      end
  end.

(** The request [get_pools_info] sends for an id string. *)
Definition pools_request (ids_str : string) : Request :=
  mkRequest GET (DATA_BASE_URL ++ "/pools/info/ids")
    (Some [("ids", VStr ids_str)]) None None.

(** [get_pools_info]. *)
Definition get_pools_info (self : RaydiumSwap) (input_mint output_mint : string)
    (amount_in : Z) : M value :=
  try_except
    (let url := DATA_BASE_URL ++ "/pools/info/ids" in
     routes <- get_routes self input_mint output_mint amount_in ;;
     if negb (truthy routes) then ret (VBool false)
     else
       items <- lift (py_iter routes) ;;
       ids <- lift (collect_pool_ids items []) ;;
       ids_str <- lift (py_join ", " ids) ;;
       let params := [("ids", VStr ids_str)] in
       resp <- requests_get url (Some params) None ;;
       resp_js <- _response_json resp ;;
       if negb (truthy resp_js) then ret (VBool false)
       else lift (getitem resp_js (VStr "data")))
    (fun e =>
       log (ErrOperation "get_pools_info" e) ;;;
       ret VNone).

(** The requests [get_rpcs] and the fee lookup send: no parameters, no
    timeout. *)
Definition rpcs_request : Request :=
  mkRequest GET (DATA_BASE_URL ++ "/main/rpcs") None None None.

Definition auto_fee_request : Request :=
  mkRequest GET (DATA_BASE_URL ++ "/main/auto-fee") None None None.

(** ** Facts about the helpers *)

Ltac unfold_m :=
  unfold try_except, bind, lift, ret, raise, log, print, emit in *.

Lemma getitem_str_truthy (v x : value) (k : string) :
  getitem v (VStr k) = Ret x -> truthy v = true.
Proof.
  destruct v; simpl; try discriminate.
  destruct d; simpl; [discriminate | reflexivity].
Qed.

Lemma response_json_status (resp : Response) (tr : trace) :
  status_code resp <> 200 ->
  _response_json resp tr =
    (Ret (VBool false), Logged (ErrStatusCode (status_code resp)) :: tr).
Proof.
  intros H. unfold _response_json.
  apply Z.eqb_neq in H. rewrite H. reflexivity.
Qed.

Lemma response_json_accept (resp : Response) (js s : value) (tr : trace) :
  status_code resp = 200 ->
  json resp = Some js ->
  getitem js (VStr "success") = Ret s ->
  truthy s = true ->
  _response_json resp tr = (Ret js, tr).
Proof.
  intros Hc Hj Hs Ht. unfold _response_json, resp_json.
  rewrite Hc, Hj. unfold_m. simpl. rewrite Hs, Ht. reflexivity.
Qed.

Lemma response_json_reject (resp : Response) (js s id : value) (tr : trace) :
  status_code resp = 200 ->
  json resp = Some js ->
  getitem js (VStr "success") = Ret s ->
  truthy s = false ->
  getitem js (VStr "id") = Ret id ->
  _response_json resp tr = (Ret (VBool false), Logged (ErrUnsuccessful id) :: tr).
Proof.
  intros Hc Hj Hs Ht Hi. unfold _response_json, resp_json.
  rewrite Hc, Hj. unfold_m. simpl. rewrite Hs, Ht. simpl. rewrite Hi. reflexivity.
Qed.

(** What [_response_json] can return: [False], or the envelope of an
    accepted response with the trace untouched. *)
Lemma response_json_returns (resp : Response) (v : value) (tr tr' : trace) :
  _response_json resp tr = (Ret v, tr') ->
  (v = VBool false /\ exists l, tr' = Logged l :: tr) \/
  (status_code resp = 200 /\ json resp = Some v /\ tr' = tr /\
   exists s, getitem v (VStr "success") = Ret s /\ truthy s = true).
Proof.
  unfold _response_json, resp_json. unfold_m.
  destruct (status_code resp =? 200) eqn:Hc; simpl.
  - apply Z.eqb_eq in Hc.
    destruct (json resp) as [js|]; [|discriminate].
    destruct (getitem js (VStr "success")) as [s|] eqn:Hs; [|discriminate].
    destruct (truthy s) eqn:Ht; simpl.
    + intros H. inversion H; subst. right. eauto 8.
    + destruct (getitem js (VStr "id")); [|discriminate].
      intros H. inversion H; subst. left. eauto.
  - intros H. inversion H; subst. left. eauto.
Qed.

(** A response whose envelope says [success = false] never yields a
    truthy result, whatever its status and other fields. *)
Lemma response_json_unsuccessful (resp : Response) (d : list (string * value))
    (r : res value) (tr tr' : trace) :
  json resp = Some (VDict d) ->
  lookup "success" d = Some (VBool false) ->
  _response_json resp tr = (r, tr') ->
  r = Ret (VBool false) \/ exists e, r = Raise e.
Proof.
  intros Hj Hs. unfold _response_json, resp_json. unfold_m.
  rewrite Hj. simpl. rewrite Hs. simpl.
  destruct (negb (status_code resp =? 200)).
  - intros H. inversion H. auto.
  - destruct (lookup "id" d); intros H; inversion H; eauto.
Qed.

Lemma compute_routes_transport (self : RaydiumSwap) (i o : string) (a : Z)
    (tr : trace) :
  net tr (quote_request self i o a) = Failed ->
  _compute_routes self i o a tr =
    (Ret VNone,
     Logged (ErrOperation "_compute_routes" RequestException)
       :: Issued (quote_request self i o a) :: tr).
Proof.
  intros H. unfold _compute_routes, requests_get. unfold_m.
  unfold quote_request in H. rewrite H. reflexivity.
Qed.

Lemma compute_routes_status (self : RaydiumSwap) (i o : string) (a : Z)
    (resp : Response) (tr : trace) :
  net tr (quote_request self i o a) = Responded resp ->
  status_code resp <> 200 ->
  _compute_routes self i o a tr =
    (Ret (VBool false),
     Logged (ErrStatusCode (status_code resp))
       :: Issued (quote_request self i o a) :: tr).
Proof.
  intros H Hc. unfold _compute_routes, requests_get.
  unfold try_except, bind at 1 2.
  unfold quote_request in H. rewrite H.
  rewrite response_json_status by assumption. reflexivity.
Qed.

Lemma compute_routes_unsuccessful (self : RaydiumSwap) (i o : string) (a : Z)
    (resp : Response) (d : list (string * value)) (tr : trace) :
  net tr (quote_request self i o a) = Responded resp ->
  json resp = Some (VDict d) ->
  lookup "success" d = Some (VBool false) ->
  exists v tr',
    _compute_routes self i o a tr = (Ret v, tr') /\
    (v = VBool false \/ v = VNone).
Proof.
  intros H Hj Hs. unfold _compute_routes, requests_get.
  unfold try_except, bind at 1 2.
  unfold quote_request in H. rewrite H.
  destruct (_response_json resp _) as [r tr'] eqn:Hr.
  destruct (response_json_unsuccessful _ _ _ _ _ Hj Hs Hr) as [-> | [e ->]].
  - simpl. unfold_m. eauto.
  - unfold_m. eauto.
Qed.

(** The quote helper on an accepted response: the envelope comes back,
    with a warning when the price impact is above the ceiling. *)
Lemma compute_routes_accept (self : RaydiumSwap) (i o : string) (a : Z)
    (resp : Response) (js s data pi : value) (above : bool) (tr : trace) :
  net tr (quote_request self i o a) = Responded resp ->
  status_code resp = 200 ->
  json resp = Some js ->
  getitem js (VStr "success") = Ret s ->
  truthy s = true ->
  getitem js (VStr "data") = Ret data ->
  getitem data (VStr "priceImpactPct") = Ret pi ->
  py_gt pi (_price_impact_max self) = Ret above ->
  _compute_routes self i o a tr =
    (Ret js,
     ((if above
       then [Logged (WarnPriceImpact pi (_price_impact_max self))]
       else []) ++ Issued (quote_request self i o a) :: tr)%list).
Proof.
  intros H Hc Hj Hs Ht Hd Hp Hg. unfold _compute_routes, requests_get.
  unfold try_except, bind at 1 2.
  unfold quote_request in H. rewrite H.
  rewrite (response_json_accept _ _ _ _ Hc Hj Hs Ht).
  rewrite (getitem_str_truthy _ _ _ Hs). unfold_m. simpl.
  rewrite Hd, Hp, Hg. destruct above; reflexivity.
Qed.

(** Every run of the quote helper returns; the result is [False] or
    [None], or else the envelope of an accepted response. *)
Lemma compute_routes_returns (self : RaydiumSwap) (i o : string) (a : Z)
    (tr : trace) :
  exists v evs,
    _compute_routes self i o a tr =
      (Ret v, (evs ++ Issued (quote_request self i o a) :: tr)%list) /\
    (forall r, ~ In (Issued r) evs) /\
    (v = VBool false \/ v = VNone \/
     (truthy v = true /\
      exists resp s,
        net tr (quote_request self i o a) = Responded resp /\
        status_code resp = 200 /\ json resp = Some v /\
        getitem v (VStr "success") = Ret s /\ truthy s = true)).
Proof.
  unfold _compute_routes, requests_get.
  unfold try_except, bind at 1 2. fold (quote_request self i o a).
  destruct (net tr (quote_request self i o a)) as [resp|] eqn:Hn.
  2:{ unfold_m. exists VNone, [Logged (ErrOperation "_compute_routes" RequestException)].
      split; [reflexivity|]. split; [|auto].
      intros r [Hr|[]]; discriminate. }
  destruct (_response_json resp _) as [[v|e] tr'] eqn:Hr.
  2:{ assert (Ht : tr' = Issued (quote_request self i o a) :: tr).
      { revert Hr. unfold _response_json, resp_json. unfold_m.
        destruct (negb (status_code resp =? 200)); [discriminate|].
        destruct (json resp); simpl; [|intros H; inversion H; reflexivity].
        destruct (getitem v (VStr "success")) as [s|]; simpl;
          [|intros H; inversion H; reflexivity].
        destruct (negb (truthy s)); [|discriminate].
        destruct (getitem v (VStr "id")); simpl; intros H; inversion H; reflexivity. }
      subst tr'. unfold_m.
      exists VNone, [Logged (ErrOperation "_compute_routes" e)].
      split; [reflexivity|]. split; [|auto].
      intros r [Hq|[]]; discriminate. }
  destruct (response_json_returns _ _ _ _ Hr) as [[-> [l ->]] | (Hc & Hj & -> & s & Hs & Ht)].
  - simpl. unfold_m. exists (VBool false), [Logged l].
    split; [reflexivity|]. split; [|auto].
    intros r [Hq|[]]; discriminate.
  - rewrite (getitem_str_truthy _ _ _ Hs). simpl. unfold_m.
    destruct (getitem v (VStr "data")) as [data|e].
    2:{ exists VNone, [Logged (ErrOperation "_compute_routes" e)].
        split; [reflexivity|]. split; [|auto]. intros r [Hq|[]]; discriminate. }
    destruct (getitem data (VStr "priceImpactPct")) as [pi|e].
    2:{ exists VNone, [Logged (ErrOperation "_compute_routes" e)].
        split; [reflexivity|]. split; [|auto]. intros r [Hq|[]]; discriminate. }
    destruct (py_gt pi (_price_impact_max self)) as [[|]|e].
    + exists v, [Logged (WarnPriceImpact pi (_price_impact_max self))].
      split; [reflexivity|]. split; [intros r [Hq|[]]; discriminate|].
      right; right. split; [eapply getitem_str_truthy; eassumption|]. eauto 8.
    + exists v, []. split; [reflexivity|]. split; [intros r []|].
      right; right. split; [eapply getitem_str_truthy; eassumption|]. eauto 8.
    + exists VNone, [Logged (ErrOperation "_compute_routes" e)].
      split; [reflexivity|]. split; [|auto]. intros r [Hq|[]]; discriminate.
Qed.

(** ** Facts about the callers of the quote helper *)

Lemma bind_run {A B : Type} (m : M A) (k : A -> M B) (a : A) (tr tr' : trace) :
  m tr = (Ret a, tr') -> bind m k tr = k a tr'.
Proof. intros H. unfold bind. rewrite H. reflexivity. Qed.

Lemma getitem_str_not_None (v x : value) (k : string) :
  getitem v (VStr k) = Ret x -> is_None v = false.
Proof. destruct v; simpl; try discriminate; reflexivity. Qed.

Lemma falsy_cases (v : value) :
  v = VBool false \/ v = VNone -> truthy v = false.
Proof. intros [-> | ->]; reflexivity. Qed.

Lemma get_price_unavailable (self : RaydiumSwap) (i o : string) (a : Z)
    (v : value) (tr tr' : trace) :
  _compute_routes self i o a tr = (Ret v, tr') ->
  truthy v = false ->
  get_price self i o a tr = (Ret (VBool false), tr').
Proof.
  intros H Hv. unfold get_price, try_except.
  rewrite (bind_run _ _ _ _ _ H). rewrite Hv. reflexivity.
Qed.

Lemma get_routes_unavailable (self : RaydiumSwap) (i o : string) (a : Z)
    (v : value) (tr tr' : trace) :
  _compute_routes self i o a tr = (Ret v, tr') ->
  truthy v = false ->
  get_routes self i o a tr = (Ret (VBool false), tr').
Proof.
  intros H Hv. unfold get_routes, try_except.
  rewrite (bind_run _ _ _ _ _ H). rewrite Hv. reflexivity.
Qed.

Lemma get_pools_info_unavailable (self : RaydiumSwap) (i o : string) (a : Z)
    (v : value) (tr tr' : trace) :
  get_routes self i o a tr = (Ret v, tr') ->
  truthy v = false ->
  get_pools_info self i o a tr = (Ret (VBool false), tr').
Proof.
  intros H Hv. unfold get_pools_info, try_except.
  rewrite (bind_run _ _ _ _ _ H). rewrite Hv. reflexivity.
Qed.

Lemma get_routes_plan (self : RaydiumSwap) (i o : string) (a : Z)
    (js data plan : value) (tr tr' : trace) :
  _compute_routes self i o a tr = (Ret js, tr') ->
  getitem js (VStr "data") = Ret data ->
  getitem data (VStr "routePlan") = Ret plan ->
  get_routes self i o a tr = (Ret plan, tr').
Proof.
  intros H Hd Hp. unfold get_routes, try_except.
  rewrite (bind_run _ _ _ _ _ H).
  rewrite (getitem_str_truthy _ _ _ Hd). unfold_m. simpl.
  rewrite Hd, (getitem_str_not_None _ _ _ Hp), Hp. reflexivity.
Qed.

Lemma get_price_quotient (self : RaydiumSwap) (i o : string) (a : Z)
    (js data vin vout : value) (x y : float) (tr tr' : trace) :
  _compute_routes self i o a tr = (Ret js, tr') ->
  getitem js (VStr "data") = Ret data ->
  getitem data (VStr "inputAmount") = Ret vin ->
  py_float vin = Ret x ->
  getitem data (VStr "outputAmount") = Ret vout ->
  py_float vout = Ret y ->
  PrimFloat.eqb y PrimFloat.zero = false ->
  get_price self i o a tr = (Ret (VFloat (PrimFloat.div x y)), tr').
Proof.
  intros H Hd Hi Hx Ho Hy Hz. unfold get_price, try_except.
  rewrite (bind_run _ _ _ _ _ H).
  rewrite (getitem_str_truthy _ _ _ Hd). unfold_m. simpl.
  rewrite Hd, (getitem_str_not_None _ _ _ Hi), Hi, Hx, Ho, Hy.
  unfold py_truediv. rewrite Hz. reflexivity.
Qed.

(** Every public operation returns: whatever is raised inside is
    caught by its own [except Exception]. *)
Lemma try_except_returns (body : M value) (op : string) (tr : trace) :
  exists v tr',
    try_except body (fun e => log (ErrOperation op e) ;;; ret VNone) tr
    = (Ret v, tr').
Proof.
  unfold try_except. destruct (body tr) as [[v|e] tr']; unfold_m; eauto.
Qed.

(** ** Requests issued *)

Lemma issued_app (evs tr : trace) :
  (forall r, ~ In (Issued r) evs) ->
  issued (evs ++ tr)%list = issued tr.
Proof.
  induction evs as [|e evs IH]; intros H; [reflexivity|].
  simpl. destruct e as [r| |].
  - exfalso. apply (H r). left. reflexivity.
  - apply IH. intros r Hr. apply (H r). right. exact Hr.
  - apply IH. intros r Hr. apply (H r). right. exact Hr.
Qed.

Lemma response_json_issued (resp : Response) (r : res value) (tr tr' : trace) :
  _response_json resp tr = (r, tr') -> issued tr' = issued tr.
Proof.
  unfold _response_json, resp_json. unfold_m.
  destruct (negb (status_code resp =? 200)).
  { intros H. inversion H. reflexivity. }
  destruct (json resp) as [js|]; simpl.
  2:{ intros H. inversion H. reflexivity. }
  destruct (getitem js (VStr "success")) as [s|]; simpl.
  2:{ intros H. inversion H. reflexivity. }
  destruct (negb (truthy s)).
  2:{ intros H. inversion H. reflexivity. }
  destruct (getitem js (VStr "id")); simpl; intros H; inversion H; reflexivity.
Qed.

Lemma compute_routes_issued (self : RaydiumSwap) (i o : string) (a : Z)
    (r : res value) (tr tr' : trace) :
  _compute_routes self i o a tr = (r, tr') ->
  issued tr' = quote_request self i o a :: issued tr.
Proof.
  destruct (compute_routes_returns self i o a tr) as (v & evs & Hc & Hno & _).
  rewrite Hc. intros H. inversion H. subst.
  rewrite (issued_app _ _ Hno). reflexivity.
Qed.

(** ** Transaction generation *)

(** The bound-method call of the fee lookup passes two positional
    arguments to a one-parameter function. *)
Lemma unit_price_call_raises (tr : trace) :
  _unit_price_micro_lamports [VSelf; VStr "h"] tr = (Raise TypeError, tr).
Proof. reflexivity. Qed.

(** Even with [select] bound, a transport failure of the auto-fee
    request raises out of the lookup: it has no handler of its own. *)
Lemma unit_price_body_transport (select : value) (tr : trace) :
  net tr (mkRequest GET (DATA_BASE_URL ++ "/main/auto-fee") None None None)
    = Failed ->
  unit_price_body select tr =
    (Raise RequestException,
     Issued (mkRequest GET (DATA_BASE_URL ++ "/main/auto-fee") None None None)
       :: tr).
Proof.
  intros H. unfold unit_price_body, requests_get, bind.
  rewrite H. reflexivity.
Qed.

Lemma generate_transaction_gate (self : RaydiumSwap) (i o w : string) (a : Z)
    (wallet in_mint out_mint input_ata output_ata : Pubkey)
    (quote data pi : value) (tr tr' : trace) :
  Pubkey_from_string w = Ret wallet ->
  Pubkey_from_string i = Ret in_mint ->
  Pubkey_from_string o = Ret out_mint ->
  get_associated_token_address wallet in_mint = Ret input_ata ->
  get_associated_token_address wallet out_mint = Ret output_ata ->
  _compute_routes self i o a tr = (Ret quote, tr') ->
  getitem quote (VStr "data") = Ret data ->
  getitem data (VStr "priceImpactPct") = Ret pi ->
  py_gt pi (_price_impact_max self) = Ret true ->
  generate_transaction self i o w a tr = (Ret (VBool false), tr').
Proof.
  intros Hw Hi Ho Hia Hoa Hq Hd Hp Hg.
  unfold generate_transaction. unfold_m.
  rewrite Hw, Hi, Ho, Hia, Hoa, Hq.
  rewrite (getitem_str_truthy _ _ _ Hd). simpl.
  rewrite Hd, Hp, Hg. reflexivity.
Qed.

Lemma generate_transaction_below_ceiling (self : RaydiumSwap) (i o w : string)
    (a : Z) (wallet in_mint out_mint input_ata output_ata : Pubkey)
    (quote data pi : value) (tr tr' : trace) :
  Pubkey_from_string w = Ret wallet ->
  Pubkey_from_string i = Ret in_mint ->
  Pubkey_from_string o = Ret out_mint ->
  get_associated_token_address wallet in_mint = Ret input_ata ->
  get_associated_token_address wallet out_mint = Ret output_ata ->
  _compute_routes self i o a tr = (Ret quote, tr') ->
  getitem quote (VStr "data") = Ret data ->
  getitem data (VStr "priceImpactPct") = Ret pi ->
  py_gt pi (_price_impact_max self) = Ret false ->
  generate_transaction self i o w a tr =
    (Ret VNone, Logged (ErrOperation "generate_transaction" TypeError) :: tr').
Proof.
  intros Hw Hi Ho Hia Hoa Hq Hd Hp Hg.
  unfold generate_transaction. unfold_m.
  rewrite Hw, Hi, Ho, Hia, Hoa, Hq.
  rewrite (getitem_str_truthy _ _ _ Hd). simpl.
  rewrite Hd, Hp, Hg. reflexivity.
Qed.

(** X1. No run of [generate_transaction] gets as far as the
    transaction-build request: at most the quote request is issued, and
    the result is [False] or [None], never a transaction. *)
Lemma generate_transaction_requests (self : RaydiumSwap) (i o w : string)
    (a : Z) (tr : trace) :
  exists v tr',
    generate_transaction self i o w a tr = (Ret v, tr') /\
    (v = VBool false \/ v = VNone) /\
    (issued tr' = issued tr \/
     issued tr' = quote_request self i o a :: issued tr).
Proof.
  unfold generate_transaction. unfold_m.
  destruct (Pubkey_from_string w) as [wallet|e]; [|eauto 8].
  destruct (Pubkey_from_string i) as [in_mint|e]; [|eauto 8].
  destruct (Pubkey_from_string o) as [out_mint|e]; [|eauto 8].
  destruct (get_associated_token_address wallet in_mint) as [ia|e]; [|eauto 8].
  destruct (get_associated_token_address wallet out_mint) as [oa|e]; [|eauto 8].
  destruct (_compute_routes self i o a tr) as [[quote|e] tr'] eqn:Hq;
    pose proof (compute_routes_issued _ _ _ _ _ _ _ Hq) as Hi; [|eauto 8].
  destruct (truthy quote); simpl; [|eauto 8].
  destruct (getitem quote (VStr "data")) as [data|e]; [|eauto 8].
  destruct (getitem data (VStr "priceImpactPct")) as [pi|e]; [|eauto 8].
  destruct (py_gt pi (_price_impact_max self)) as [[|]|e]; eauto 8.
Qed.

(** ** Pool metadata *)

Lemma collect_pool_ids_spec (hops : list value) (ids : list string)
    (acc : list value) :
  Forall2 (fun hop id => getitem hop (VStr "poolId") = Ret (VStr id)) hops ids ->
  collect_pool_ids hops acc = Ret (acc ++ List.map VStr ids)%list.
Proof.
  intros H. revert acc.
  induction H as [|hop id hops ids Hh _ IH]; intros acc; simpl.
  - rewrite app_nil_r. reflexivity.
  - rewrite Hh, IH, <- app_assoc. reflexivity.
Qed.

Lemma strings_of_strs (ids : list string) :
  strings_of (List.map VStr ids) = Ret ids.
Proof.
  induction ids as [|id ids IH]; simpl; [reflexivity|].
  rewrite IH. reflexivity.
Qed.

(** ** The claims *)

(** C1. A quote whose [priceImpactPct] is above [price_impact_max]
    makes [generate_transaction] return [False]; the quote request is
    the only request of the run, so nothing is posted to the
    transaction-build endpoint. *)
Theorem generate_transaction_price_impact_ceiling (self : RaydiumSwap)
    (i o w : string) (a : Z)
    (wallet in_mint out_mint input_ata output_ata : Pubkey)
    (quote data pi : value) (tr tr' : trace) :
  Pubkey_from_string w = Ret wallet ->
  Pubkey_from_string i = Ret in_mint ->
  Pubkey_from_string o = Ret out_mint ->
  get_associated_token_address wallet in_mint = Ret input_ata ->
  get_associated_token_address wallet out_mint = Ret output_ata ->
  _compute_routes self i o a tr = (Ret quote, tr') ->
  getitem quote (VStr "data") = Ret data ->
  getitem data (VStr "priceImpactPct") = Ret pi ->
  py_gt pi (_price_impact_max self) = Ret true ->
  generate_transaction self i o w a tr = (Ret (VBool false), tr') /\
  issued tr' = quote_request self i o a :: issued tr /\
  req_method (quote_request self i o a) = GET.
Proof.
  intros Hw Hi Ho Hia Hoa Hq Hd Hp Hg. split; [|split].
  - eapply generate_transaction_gate; eassumption.
  - eapply compute_routes_issued; eassumption.
  - reflexivity.
Qed.

(** C3. When the quote request fails in transport, or the quote
    response carries [success = false], [get_price], [get_routes] and
    [get_pools_info] each return [False]; none of them raises. *)
Theorem quote_unavailable_returns_False (self : RaydiumSwap) (i o : string)
    (a : Z) (tr : trace) :
  (net tr (quote_request self i o a) = Failed \/
   exists resp d,
     net tr (quote_request self i o a) = Responded resp /\
     json resp = Some (VDict d) /\
     lookup "success" d = Some (VBool false)) ->
  fst (get_price self i o a tr) = Ret (VBool false) /\
  fst (get_routes self i o a tr) = Ret (VBool false) /\
  fst (get_pools_info self i o a tr) = Ret (VBool false).
Proof.
  intros H.
  assert (Hq : exists v tr', _compute_routes self i o a tr = (Ret v, tr') /\
                             truthy v = false).
  { destruct H as [H | (resp & d & H & Hj & Hs)].
    - rewrite (compute_routes_transport _ _ _ _ _ H). eauto.
    - destruct (compute_routes_unsuccessful _ _ _ _ _ _ _ H Hj Hs)
        as (v & tr' & Hc & Hv).
      exists v, tr'. split; [assumption | apply falsy_cases; assumption]. }
  destruct Hq as (v & tr' & Hc & Hv).
  pose proof (get_routes_unavailable _ _ _ _ _ _ _ Hc Hv) as Hr.
  rewrite (get_price_unavailable _ _ _ _ _ _ _ Hc Hv), Hr.
  rewrite (get_pools_info_unavailable _ _ _ _ _ _ _ Hr eq_refl).
  auto.
Qed.

(** C4, as amended.  For a quote whose [inputAmount] and [outputAmount]
    convert under [float] and whose [outputAmount] is not zero,
    [get_price] returns the binary64 quotient of the two raw amounts;
    for 1_000_000_000 and 8_000_000 that is 125.0. *)
Theorem get_price_is_quotient (self : RaydiumSwap) (i o : string) (a : Z)
    (js data : value) (tr tr' : trace) :
  _compute_routes self i o a tr = (Ret js, tr') ->
  getitem js (VStr "data") = Ret data ->
  (forall vin vout x y,
     getitem data (VStr "inputAmount") = Ret vin ->
     py_float vin = Ret x ->
     getitem data (VStr "outputAmount") = Ret vout ->
     py_float vout = Ret y ->
     PrimFloat.eqb y PrimFloat.zero = false ->
     get_price self i o a tr = (Ret (VFloat (PrimFloat.div x y)), tr')) /\
  (getitem data (VStr "inputAmount") = Ret (VInt 1000000000) ->
   getitem data (VStr "outputAmount") = Ret (VInt 8000000) ->
   get_price self i o a tr = (Ret (VFloat 125%float), tr')).
Proof.
  intros Hq Hd. split.
  - intros vin vout x y Hi Hx Ho Hy Hz.
    eapply get_price_quotient; eassumption.
  - intros Hi Ho.
    change 125%float
      with (PrimFloat.div 1000000000%float 8000000%float).
    eapply get_price_quotient; try eassumption; reflexivity.
Qed.

(** C5, as amended.  [_response_json] returns the decoded envelope
    exactly when the status is 200 and the envelope's [success] is
    truthy.  It returns [False] on any other status, and on status 200
    with a falsy [success] when the envelope has an [id].  Every public
    operation returns a value: nothing raised below it reaches its
    caller. *)
Theorem response_json_validation (resp : Response) (tr : trace) :
  (forall v,
     (exists tr', _response_json resp tr = (Ret v, tr') /\ v <> VBool false) <->
     (status_code resp = 200 /\ json resp = Some v /\
      exists s, getitem v (VStr "success") = Ret s /\ truthy s = true)) /\
  (status_code resp <> 200 ->
   _response_json resp tr =
     (Ret (VBool false), Logged (ErrStatusCode (status_code resp)) :: tr)) /\
  (forall js s id,
     status_code resp = 200 ->
     json resp = Some js ->
     getitem js (VStr "success") = Ret s ->
     truthy s = false ->
     getitem js (VStr "id") = Ret id ->
     _response_json resp tr =
       (Ret (VBool false), Logged (ErrUnsuccessful id) :: tr)) /\
  (forall self i o w a tr0,
     (exists v tr', generate_transaction self i o w a tr0 = (Ret v, tr')) /\
     (exists v tr', get_price self i o a tr0 = (Ret v, tr')) /\
     (exists v tr', get_rpcs self tr0 = (Ret v, tr')) /\
     (exists v tr', get_pools_info self i o a tr0 = (Ret v, tr')) /\
     (exists v tr', get_routes self i o a tr0 = (Ret v, tr'))).
Proof.
  split; [|split; [|split]].
  - intros v. split.
    + intros (tr' & H & Hv).
      destruct (response_json_returns _ _ _ _ H)
        as [[Hf _] | (Hc & Hj & _ & Hs)]; [contradiction | auto].
    + intros (Hc & Hj & s & Hs & Ht). exists tr. split.
      * eapply response_json_accept; eassumption.
      * intros ->. discriminate Hs.
  - apply response_json_status.
  - intros js s id. apply response_json_reject.
  - intros self i o w a tr0.
    repeat split; apply try_except_returns.
Qed.

(** C6. For a non-empty route plan, [get_pools_info] issues the
    pools-info request whose [ids] parameter is the [poolId] of every
    hop, one per hop, in plan order, duplicates kept, joined with
    [", "]. *)
Theorem get_pools_info_ids (self : RaydiumSwap) (i o : string) (a : Z)
    (js data : value) (hops : list value) (ids : list string)
    (tr tr1 : trace) :
  _compute_routes self i o a tr = (Ret js, tr1) ->
  getitem js (VStr "data") = Ret data ->
  getitem data (VStr "routePlan") = Ret (VList hops) ->
  hops <> [] ->
  Forall2 (fun hop id => getitem hop (VStr "poolId") = Ret (VStr id)) hops ids ->
  exists v tr',
    get_pools_info self i o a tr = (Ret v, tr') /\
    issued tr' = pools_request (String.concat ", " ids) :: issued tr1 /\
    req_params (pools_request (String.concat ", " ids)) =
      Some [("ids", VStr (String.concat ", " ids))].
Proof.
  intros Hq Hd Hp Hne Hids.
  unfold get_pools_info, try_except.
  rewrite (bind_run _ _ _ _ _ (get_routes_plan _ _ _ _ _ _ _ _ _ Hq Hd Hp)).
  assert (Ht : truthy (VList hops) = true) by (destruct hops; [congruence | reflexivity]).
  rewrite Ht. unfold requests_get. unfold bind at 1 2 3 4. unfold lift. simpl.
  rewrite (collect_pool_ids_spec _ _ [] Hids). simpl.
  unfold py_join. rewrite strings_of_strs.
  fold (pools_request (String.concat ", " ids)).
  destruct (net tr1 (pools_request (String.concat ", " ids))) as [resp|].
  2:{ unfold_m. eauto. }
  unfold bind at 1.
  destruct (_response_json resp _) as [[v|e] tr'] eqn:Hr;
    apply response_json_issued in Hr; simpl in Hr.
  2:{ unfold_m. eauto. }
  destruct (negb (truthy v)); unfold_m; [eauto|].
  destruct (getitem v (VStr "data")); eauto.
Qed.

(** C7. On a validated quote whose [priceImpactPct] is above
    [price_impact_max], [_compute_routes] logs a warning and returns the
    whole envelope. *)
Theorem compute_routes_warns_and_returns_envelope (self : RaydiumSwap)
    (i o : string) (a : Z) (resp : Response) (js s data pi : value)
    (tr : trace) :
  net tr (quote_request self i o a) = Responded resp ->
  status_code resp = 200 ->
  json resp = Some js ->
  getitem js (VStr "success") = Ret s ->
  truthy s = true ->
  getitem js (VStr "data") = Ret data ->
  getitem data (VStr "priceImpactPct") = Ret pi ->
  py_gt pi (_price_impact_max self) = Ret true ->
  _compute_routes self i o a tr =
    (Ret js,
     Logged (WarnPriceImpact pi (_price_impact_max self))
       :: Issued (quote_request self i o a) :: tr).
Proof.
  intros H Hc Hj Hs Ht Hd Hp Hg.
  rewrite (compute_routes_accept _ _ _ _ _ _ _ _ _ _ _ H Hc Hj Hs Ht Hd Hp Hg).
  reflexivity.
Qed.

(** C8, where the code departs from it.  The request of [get_rpcs]
    carries no timeout at all, whatever the configured one. *)
Theorem get_rpcs_sends_no_timeout (self : RaydiumSwap) (tr : trace) :
  exists v tr',
    get_rpcs self tr = (Ret v, tr') /\
    issued tr' =
      mkRequest GET (DATA_BASE_URL ++ "/main/rpcs") None None None :: issued tr.
Proof.
  unfold get_rpcs, try_except, requests_get. unfold bind at 1 2.
  destruct (net tr _) as [resp|].
  2:{ unfold_m. eauto. }
  destruct (_response_json resp _) as [[v|e] tr'] eqn:Hr;
    apply response_json_issued in Hr; simpl in Hr.
  2:{ unfold_m. eauto. }
  destruct (negb (truthy v)); unfold_m; [eauto|].
  destruct (getitem v (VStr "data")) as [d|]; [|eauto].
  destruct (getitem d (VStr "rpcs")); eauto.
Qed.

(** C9, as amended.  Every run of [_compute_routes] returns.  A failure
    (transport failure, status other than 200, unsuccessful envelope)
    gives [False] or [None], both falsy; a success gives the envelope of
    an accepted response, which is truthy.  So the helper's own result
    tells failure from success by its truth value.  That truth value is
    the one of an empty route plan and of a zero price. *)
Theorem compute_routes_failure_is_falsy (self : RaydiumSwap) (i o : string)
    (a : Z) (tr : trace) :
  exists v tr',
    _compute_routes self i o a tr = (Ret v, tr') /\
    (((v = VBool false \/ v = VNone) /\ truthy v = false /\
      truthy v = truthy (VList []) /\ truthy v = truthy (VFloat 0%float)) \/
     (truthy v = true /\
      exists resp s,
        net tr (quote_request self i o a) = Responded resp /\
        status_code resp = 200 /\ json resp = Some v /\
        getitem v (VStr "success") = Ret s /\ truthy s = true)) /\
    (net tr (quote_request self i o a) = Failed -> v = VNone) /\
    (forall resp,
       net tr (quote_request self i o a) = Responded resp ->
       status_code resp <> 200 -> v = VBool false) /\
    (forall resp d,
       net tr (quote_request self i o a) = Responded resp ->
       json resp = Some (VDict d) ->
       lookup "success" d = Some (VBool false) ->
       v = VBool false \/ v = VNone).
Proof.
  destruct (compute_routes_returns self i o a tr) as (v & evs & Hc & _ & Hv).
  exists v, (evs ++ Issued (quote_request self i o a) :: tr)%list.
  split; [exact Hc|]. split; [|split; [|split]].
  - destruct Hv as [Hv | [Hv | Hv]].
    + left. split; [auto | subst; repeat split].
    + left. split; [auto | subst; repeat split].
    + right. exact Hv.
  - intros H. rewrite (compute_routes_transport _ _ _ _ _ H) in Hc.
    inversion Hc. reflexivity.
  - intros resp H Hs. rewrite (compute_routes_status _ _ _ _ _ _ H Hs) in Hc.
    inversion Hc. reflexivity.
  - intros resp d H Hj Hs.
    destruct (compute_routes_unsuccessful _ _ _ _ _ _ _ H Hj Hs)
      as (v' & tr' & Hc' & Hv').
    rewrite Hc' in Hc. inversion Hc. subst. exact Hv'.
Qed.

(** C10. On a validated quote whose [outputAmount] is zero, [get_price]
    returns [None] after logging the exception it caught; when the
    [inputAmount] converts, that exception is the [ZeroDivisionError] of
    the division.  No float, infinite or other, is returned. *)
Theorem get_price_zero_output (self : RaydiumSwap) (i o : string) (a : Z)
    (js data vout : value) (y : float) (tr tr' : trace) :
  _compute_routes self i o a tr = (Ret js, tr') ->
  getitem js (VStr "data") = Ret data ->
  getitem data (VStr "outputAmount") = Ret vout ->
  py_float vout = Ret y ->
  PrimFloat.eqb y PrimFloat.zero = true ->
  exists e,
    get_price self i o a tr =
      (Ret VNone, Logged (ErrOperation "get_price" e) :: tr') /\
    (forall vin x,
       getitem data (VStr "inputAmount") = Ret vin ->
       py_float vin = Ret x ->
       e = ZeroDivisionError).
Proof.
  intros Hq Hd Ho Hy Hz. unfold get_price, try_except.
  rewrite (bind_run _ _ _ _ _ Hq).
  rewrite (getitem_str_truthy _ _ _ Hd). unfold_m. simpl.
  rewrite Hd, (getitem_str_not_None _ _ _ Ho).
  destruct (getitem data (VStr "inputAmount")) as [vin|e].
  2:{ exists e. split; [reflexivity | discriminate]. }
  destruct (py_float vin) as [x|e] eqn:Hx.
  2:{ exists e. split; [reflexivity|].
      intros vin' x' H Hx'. inversion H; subst. congruence. }
  rewrite Ho, Hy. unfold py_truediv. rewrite Hz.
  exists ZeroDivisionError. split; reflexivity.
Qed.

(** ** Further properties of the quote helper *)

Lemma float_ltb_irrefl (m : float) : PrimFloat.ltb m m = false.
Proof.
  rewrite ltb_spec. unfold SFltb, SFcompare.
  destruct (Prim2SF m) as [s|s| |s mant e]; try reflexivity.
  - destruct s; reflexivity.
  - destruct s; rewrite Z.compare_refl, Pos.compare_cont_refl; reflexivity.
Qed.

(** A truthy result of [_compute_routes] is an envelope whose [data] is
    not [None] and holds a [priceImpactPct] that compares with the
    ceiling; the trace gained the quote request and, above the ceiling
    only, one warning. *)
Lemma compute_routes_quote_shape (self : RaydiumSwap) (i o : string) (a : Z)
    (v : value) (tr tr' : trace) :
  _compute_routes self i o a tr = (Ret v, tr') ->
  truthy v = true ->
  exists data pi above,
    getitem v (VStr "data") = Ret data /\
    is_None data = false /\
    getitem data (VStr "priceImpactPct") = Ret pi /\
    py_gt pi (_price_impact_max self) = Ret above /\
    tr' = ((if above
            then [Logged (WarnPriceImpact pi (_price_impact_max self))]
            else []) ++ Issued (quote_request self i o a) :: tr)%list.
Proof.
  unfold _compute_routes, requests_get.
  unfold try_except, bind at 1 2. fold (quote_request self i o a).
  destruct (net tr (quote_request self i o a)) as [resp|].
  2:{ unfold_m. intros H Ht. inversion H; subst. discriminate. }
  destruct (_response_json resp _) as [[w|e] tr1] eqn:Hr.
  2:{ unfold_m. intros H Ht. inversion H; subst. discriminate. }
  destruct (response_json_returns _ _ _ _ Hr)
    as [[-> [l ->]] | (Hc & Hj & -> & s & Hs & Hts)].
  - simpl. unfold_m. intros H Ht. inversion H; subst. discriminate.
  - rewrite (getitem_str_truthy _ _ _ Hs). simpl. unfold_m.
    destruct (getitem w (VStr "data")) as [data|e] eqn:Hd.
    2:{ intros H Ht. inversion H; subst. discriminate. }
    destruct (getitem data (VStr "priceImpactPct")) as [pi|e] eqn:Hp.
    2:{ intros H Ht. inversion H; subst. discriminate. }
    destruct (py_gt pi (_price_impact_max self)) as [above|e] eqn:Hg.
    2:{ intros H Ht. inversion H; subst. discriminate. }
    intros H Ht. exists data, pi, above.
    pose proof (getitem_str_not_None _ _ _ Hp) as Hn.
    destruct above; inversion H; subst; auto 6.
Qed.

(** X6. On an accepted quote whose [priceImpactPct] is not above the
    ceiling, [_compute_routes] returns the envelope and logs nothing: the
    trace gains the quote request only. *)
Theorem compute_routes_silent_below_ceiling (self : RaydiumSwap) (i o : string)
    (a : Z) (resp : Response) (js s data pi : value) (tr : trace) :
  net tr (quote_request self i o a) = Responded resp ->
  status_code resp = 200 ->
  json resp = Some js ->
  getitem js (VStr "success") = Ret s ->
  truthy s = true ->
  getitem js (VStr "data") = Ret data ->
  getitem data (VStr "priceImpactPct") = Ret pi ->
  py_gt pi (_price_impact_max self) = Ret false ->
  _compute_routes self i o a tr =
    (Ret js, Issued (quote_request self i o a) :: tr).
Proof.
  intros H Hc Hj Hs Ht Hd Hp Hg.
  rewrite (compute_routes_accept _ _ _ _ _ _ _ _ _ _ _ H Hc Hj Hs Ht Hd Hp Hg).
  reflexivity.
Qed.

(** X7. The ceiling is strict: a quote whose [priceImpactPct] is the
    very float configured as [price_impact_max] draws no warning. *)
Theorem compute_routes_at_ceiling (self : RaydiumSwap) (i o : string) (a : Z)
    (resp : Response) (js s data : value) (tr : trace) :
  net tr (quote_request self i o a) = Responded resp ->
  status_code resp = 200 ->
  json resp = Some js ->
  getitem js (VStr "success") = Ret s ->
  truthy s = true ->
  getitem js (VStr "data") = Ret data ->
  getitem data (VStr "priceImpactPct") = Ret (VFloat (_price_impact_max self)) ->
  _compute_routes self i o a tr =
    (Ret js, Issued (quote_request self i o a) :: tr).
Proof.
  intros H Hc Hj Hs Ht Hd Hp.
  assert (Hg : py_gt (VFloat (_price_impact_max self)) (_price_impact_max self)
               = Ret false).
  { simpl. rewrite float_ltb_irrefl. reflexivity. }
  rewrite (compute_routes_accept _ _ _ _ _ _ _ _ _ _ _ H Hc Hj Hs Ht Hd Hp Hg).
  reflexivity.
Qed.

(** X8. A malformed quote response (a body that is not JSON, or an
    envelope without [data] or without [priceImpactPct], or with one that
    does not compare with a float) makes [_compute_routes] return [None]
    after logging the exception; the quote request is the only one. *)
Theorem compute_routes_malformed (self : RaydiumSwap) (i o : string) (a : Z)
    (resp : Response) (e : exn) (tr : trace) :
  net tr (quote_request self i o a) = Responded resp ->
  status_code resp = 200 ->
  ((json resp = None /\ e = JSONDecodeError) \/
   (exists js s,
      json resp = Some js /\
      getitem js (VStr "success") = Ret s /\ truthy s = true /\
      (getitem js (VStr "data") = Raise e \/
       exists data,
         getitem js (VStr "data") = Ret data /\
         (getitem data (VStr "priceImpactPct") = Raise e \/
          exists pi,
            getitem data (VStr "priceImpactPct") = Ret pi /\
            py_gt pi (_price_impact_max self) = Raise e)))) ->
  _compute_routes self i o a tr =
    (Ret VNone,
     Logged (ErrOperation "_compute_routes" e)
       :: Issued (quote_request self i o a) :: tr).
Proof.
  intros H Hc Hm. unfold _compute_routes, requests_get.
  unfold try_except, bind at 1 2.
  unfold quote_request in H. rewrite H.
  destruct Hm as [[Hj ->] | (js & s & Hj & Hs & Ht & Hm)].
  - unfold _response_json, resp_json. rewrite Hc, Hj. reflexivity.
  - rewrite (response_json_accept _ _ _ _ Hc Hj Hs Ht).
    rewrite (getitem_str_truthy _ _ _ Hs). unfold_m. simpl.
    destruct Hm as [Hd | (data & Hd & [Hp | (pi & Hp & Hg)])].
    + rewrite Hd. reflexivity.
    + rewrite Hd, Hp. reflexivity.
    + rewrite Hd, Hp, Hg. reflexivity.
Qed.

(** ** Further properties of transaction generation *)

(** X2. When one of the three addresses does not parse, or an
    associated-token address cannot be derived, [generate_transaction]
    returns [None] after logging that exception: no request is issued. *)
Theorem generate_transaction_bad_address (self : RaydiumSwap) (i o w : string)
    (a : Z) (e : exn) (tr : trace) :
  (Pubkey_from_string w = Raise e \/
   (exists wallet,
      Pubkey_from_string w = Ret wallet /\
      (Pubkey_from_string i = Raise e \/
       exists in_mint,
         Pubkey_from_string i = Ret in_mint /\
         (Pubkey_from_string o = Raise e \/
          exists out_mint,
            Pubkey_from_string o = Ret out_mint /\
            (get_associated_token_address wallet in_mint = Raise e \/
             exists input_ata,
               get_associated_token_address wallet in_mint = Ret input_ata /\
               get_associated_token_address wallet out_mint = Raise e))))) ->
  generate_transaction self i o w a tr =
    (Ret VNone, Logged (ErrOperation "generate_transaction" e) :: tr).
Proof.
  intros H. unfold generate_transaction. unfold_m.
  destruct H as [Hw | (wallet & Hw & H)]; rewrite Hw; [reflexivity|].
  destruct H as [Hi | (in_mint & Hi & H)]; rewrite Hi; [reflexivity|].
  destruct H as [Ho | (out_mint & Ho & H)]; rewrite Ho; [reflexivity|].
  destruct H as [Hia | (input_ata & Hia & Hoa)]; rewrite Hia; [reflexivity|].
  rewrite Hoa. reflexivity.
Qed.

(** X3. With the addresses parsed, a falsy result of the quote helper
    ([False] or [None]) makes [generate_transaction] return [False], and
    nothing happens after the helper's run. *)
Theorem generate_transaction_quote_unavailable (self : RaydiumSwap)
    (i o w : string) (a : Z)
    (wallet in_mint out_mint input_ata output_ata : Pubkey)
    (v : value) (tr tr' : trace) :
  Pubkey_from_string w = Ret wallet ->
  Pubkey_from_string i = Ret in_mint ->
  Pubkey_from_string o = Ret out_mint ->
  get_associated_token_address wallet in_mint = Ret input_ata ->
  get_associated_token_address wallet out_mint = Ret output_ata ->
  _compute_routes self i o a tr = (Ret v, tr') ->
  truthy v = false ->
  generate_transaction self i o w a tr = (Ret (VBool false), tr').
Proof.
  intros Hw Hi Ho Hia Hoa Hq Hv.
  unfold generate_transaction. unfold_m.
  rewrite Hw, Hi, Ho, Hia, Hoa, Hq, Hv. reflexivity.
Qed.

(** X4. With the addresses parsed and a quote in hand,
    [generate_transaction] has two outcomes only, decided by the
    comparison of the quote's [priceImpactPct] with the ceiling: above it
    the result is [False]; otherwise the fee lookup call raises
    [TypeError], which is logged, and the result is [None].  Nothing is
    issued after the helper's run. *)
Theorem generate_transaction_with_quote (self : RaydiumSwap)
    (i o w : string) (a : Z)
    (wallet in_mint out_mint input_ata output_ata : Pubkey)
    (quote : value) (tr tr' : trace) :
  Pubkey_from_string w = Ret wallet ->
  Pubkey_from_string i = Ret in_mint ->
  Pubkey_from_string o = Ret out_mint ->
  get_associated_token_address wallet in_mint = Ret input_ata ->
  get_associated_token_address wallet out_mint = Ret output_ata ->
  _compute_routes self i o a tr = (Ret quote, tr') ->
  truthy quote = true ->
  exists data pi above,
    getitem quote (VStr "data") = Ret data /\
    getitem data (VStr "priceImpactPct") = Ret pi /\
    py_gt pi (_price_impact_max self) = Ret above /\
    generate_transaction self i o w a tr =
      if above
      then (Ret (VBool false), tr')
      else (Ret VNone,
            Logged (ErrOperation "generate_transaction" TypeError) :: tr').
Proof.
  intros Hw Hi Ho Hia Hoa Hq Hv.
  destruct (compute_routes_quote_shape _ _ _ _ _ _ _ Hq Hv)
    as (data & pi & above & Hd & _ & Hp & Hg & _).
  exists data, pi, above. repeat split; try assumption.
  destruct above.
  - eapply generate_transaction_gate; eassumption.
  - eapply generate_transaction_below_ceiling; eassumption.
Qed.

(** X5. Every run of [_compute_routes] returns, and its result is either
    falsy or an envelope whose [data] is not [None] and holds a
    [priceImpactPct] that compares with the ceiling.  So the
    [data is None] tests of [get_price] and [get_routes] never fire on a
    quote the helper handed over. *)
Theorem compute_routes_result_shape (self : RaydiumSwap) (i o : string) (a : Z)
    (tr : trace) :
  exists v tr',
    _compute_routes self i o a tr = (Ret v, tr') /\
    (truthy v = false \/
     exists data pi above,
       getitem v (VStr "data") = Ret data /\
       is_None data = false /\
       getitem data (VStr "priceImpactPct") = Ret pi /\
       py_gt pi (_price_impact_max self) = Ret above).
Proof.
  destruct (compute_routes_returns self i o a tr) as (v & evs & Hc & _ & _).
  exists v, (evs ++ Issued (quote_request self i o a) :: tr)%list.
  split; [exact Hc|].
  destruct (truthy v) eqn:Hv; [right | left; reflexivity].
  destruct (compute_routes_quote_shape _ _ _ _ _ _ _ Hc Hv)
    as (data & pi & above & Hd & Hn & Hp & Hg & _).
  exists data, pi, above. auto.
Qed.

(** ** Further properties of the price and the route plan *)

(** X9. Every run of [get_price] returns [False], [None] or a float, and
    issues exactly one request, the quote request. *)
Theorem get_price_outcomes (self : RaydiumSwap) (i o : string) (a : Z)
    (tr : trace) :
  exists v tr',
    get_price self i o a tr = (Ret v, tr') /\
    issued tr' = quote_request self i o a :: issued tr /\
    (v = VBool false \/ v = VNone \/ exists f, v = VFloat f).
Proof.
  destruct (compute_routes_returns self i o a tr) as (q & evs & Hc & _ & _).
  pose proof (compute_routes_issued _ _ _ _ _ _ _ Hc) as Hi.
  unfold get_price, try_except. rewrite (bind_run _ _ _ _ _ Hc).
  destruct (truthy q); simpl; unfold_m; [|eauto 8].
  destruct (getitem q (VStr "data")) as [d|e]; [|eauto 8].
  destruct (is_None d); [eauto 8|].
  destruct (getitem d (VStr "inputAmount")) as [vin|e]; [|eauto 8].
  destruct (py_float vin) as [x|e]; [|eauto 8].
  destruct (getitem d (VStr "outputAmount")) as [vout|e]; [|eauto 8].
  destruct (py_float vout) as [y|e]; [|eauto 8].
  destruct (py_truediv x y) as [p|e]; eauto 10.
Qed.

(** X10. With a quote in hand, an amount that is missing or that
    [float] does not convert makes [get_price] return [None] after
    logging that exception. *)
Theorem get_price_amount_errors (self : RaydiumSwap) (i o : string) (a : Z)
    (js data : value) (e : exn) (tr tr' : trace) :
  _compute_routes self i o a tr = (Ret js, tr') ->
  getitem js (VStr "data") = Ret data ->
  (getitem data (VStr "inputAmount") = Raise e \/
   exists vin,
     getitem data (VStr "inputAmount") = Ret vin /\
     (py_float vin = Raise e \/
      exists x,
        py_float vin = Ret x /\
        (getitem data (VStr "outputAmount") = Raise e \/
         exists vout,
           getitem data (VStr "outputAmount") = Ret vout /\
           py_float vout = Raise e))) ->
  get_price self i o a tr =
    (Ret VNone, Logged (ErrOperation "get_price" e) :: tr').
Proof.
  intros Hq Hd H.
  pose proof (getitem_str_truthy _ _ _ Hd) as Hv.
  destruct (compute_routes_quote_shape _ _ _ _ _ _ _ Hq Hv)
    as (data' & _ & _ & Hd' & Hn & _).
  rewrite Hd in Hd'. inversion Hd'; subst data'.
  unfold get_price, try_except. rewrite (bind_run _ _ _ _ _ Hq).
  rewrite Hv. unfold_m. simpl. rewrite Hd, Hn.
  destruct H as [Hi | (vin & Hi & H)]; rewrite Hi; [reflexivity|].
  destruct H as [Hx | (x & Hx & H)]; rewrite Hx; [reflexivity|].
  destruct H as [Ho | (vout & Ho & Hy)]; rewrite Ho; [reflexivity|].
  rewrite Hy. reflexivity.
Qed.

Lemma get_routes_returns (self : RaydiumSwap) (i o : string) (a : Z)
    (tr : trace) :
  exists v tr',
    get_routes self i o a tr = (Ret v, tr') /\
    issued tr' = quote_request self i o a :: issued tr.
Proof.
  destruct (compute_routes_returns self i o a tr) as (q & evs & Hc & _ & _).
  pose proof (compute_routes_issued _ _ _ _ _ _ _ Hc) as Hi.
  unfold get_routes, try_except. rewrite (bind_run _ _ _ _ _ Hc).
  destruct (truthy q); simpl; unfold_m; [|eauto 8].
  destruct (getitem q (VStr "data")) as [d|e]; [|eauto 8].
  destruct (is_None d); [eauto 8|].
  destruct (getitem d (VStr "routePlan")); eauto 8.
Qed.

(** X11. [get_routes] hands over the [routePlan] of the quote exactly as
    decoded, adding nothing to the helper's trace; a quote without a
    [routePlan] gives [None] after logging the exception. *)
Theorem get_routes_plan_or_None (self : RaydiumSwap) (i o : string) (a : Z)
    (js data : value) (tr tr' : trace) :
  _compute_routes self i o a tr = (Ret js, tr') ->
  getitem js (VStr "data") = Ret data ->
  (forall plan,
     getitem data (VStr "routePlan") = Ret plan ->
     get_routes self i o a tr = (Ret plan, tr')) /\
  (forall e,
     getitem data (VStr "routePlan") = Raise e ->
     get_routes self i o a tr =
       (Ret VNone, Logged (ErrOperation "get_routes" e) :: tr')).
Proof.
  intros Hq Hd. split.
  - intros plan Hp. eapply get_routes_plan; eassumption.
  - intros e Hp.
    pose proof (getitem_str_truthy _ _ _ Hd) as Hv.
    destruct (compute_routes_quote_shape _ _ _ _ _ _ _ Hq Hv)
      as (data' & _ & _ & Hd' & Hn & _).
    rewrite Hd in Hd'. inversion Hd'; subst data'.
    unfold get_routes, try_except. rewrite (bind_run _ _ _ _ _ Hq).
    rewrite Hv. unfold_m. simpl. rewrite Hd, Hn, Hp. reflexivity.
Qed.

(** X12. A falsy result of the quote helper, [None] included, comes out
    of [get_price], [get_routes] and [get_pools_info] as [False], with the
    helper's trace unchanged: no further request, no further log. *)
Theorem helper_failure_becomes_False (self : RaydiumSwap) (i o : string)
    (a : Z) (v : value) (tr tr' : trace) :
  _compute_routes self i o a tr = (Ret v, tr') ->
  truthy v = false ->
  get_price self i o a tr = (Ret (VBool false), tr') /\
  get_routes self i o a tr = (Ret (VBool false), tr') /\
  get_pools_info self i o a tr = (Ret (VBool false), tr').
Proof.
  intros Hc Hv.
  pose proof (get_routes_unavailable _ _ _ _ _ _ _ Hc Hv) as Hr.
  split; [|split].
  - eapply get_price_unavailable; eassumption.
  - exact Hr.
  - eapply get_pools_info_unavailable; [exact Hr | reflexivity].
Qed.

(** ** Further properties of the pool metadata *)

Lemma collect_pool_ids_stops (pre post : list value) (bad : value)
    (ids : list string) (acc : list value) (e : exn) :
  Forall2 (fun hop id => getitem hop (VStr "poolId") = Ret (VStr id)) pre ids ->
  getitem bad (VStr "poolId") = Raise e ->
  collect_pool_ids (pre ++ bad :: post) acc = Raise e.
Proof.
  intros H Hb. revert acc.
  induction H as [|hop id pre ids Hh _ IH]; intros acc; simpl.
  - rewrite Hb. reflexivity.
  - rewrite Hh. apply IH.
Qed.

(** Once the ids are collected, what is left of [get_pools_info] is the
    pools-info request and the validation of its response. *)
Lemma get_pools_info_after_routes (self : RaydiumSwap) (i o : string) (a : Z)
    (js data : value) (hops : list value) (ids : list string)
    (tr tr1 : trace) :
  _compute_routes self i o a tr = (Ret js, tr1) ->
  getitem js (VStr "data") = Ret data ->
  getitem data (VStr "routePlan") = Ret (VList hops) ->
  hops <> [] ->
  Forall2 (fun hop id => getitem hop (VStr "poolId") = Ret (VStr id)) hops ids ->
  get_pools_info self i o a tr =
    try_except
      (resp <- requests_get (DATA_BASE_URL ++ "/pools/info/ids")
                 (Some [("ids", VStr (String.concat ", " ids))]) None ;;
       resp_js <- _response_json resp ;;
       if negb (truthy resp_js) then ret (VBool false)
       else lift (getitem resp_js (VStr "data")))
      (fun e => log (ErrOperation "get_pools_info" e) ;;; ret VNone)
      tr1.
Proof.
  intros Hq Hd Hp Hne Hids.
  unfold get_pools_info, try_except.
  rewrite (bind_run _ _ _ _ _ (get_routes_plan _ _ _ _ _ _ _ _ _ Hq Hd Hp)).
  assert (Ht : truthy (VList hops) = true) by (destruct hops; [congruence | reflexivity]).
  rewrite Ht. unfold bind at 1 2 3. unfold lift. simpl.
  rewrite (collect_pool_ids_spec _ _ [] Hids). simpl.
  unfold py_join. rewrite strings_of_strs. reflexivity.
Qed.

(** X13. An empty route plan makes [get_pools_info] return [False]
    without asking the pools-info endpoint. *)
Theorem get_pools_info_empty_plan (self : RaydiumSwap) (i o : string) (a : Z)
    (js data : value) (tr tr1 : trace) :
  _compute_routes self i o a tr = (Ret js, tr1) ->
  getitem js (VStr "data") = Ret data ->
  getitem data (VStr "routePlan") = Ret (VList []) ->
  get_pools_info self i o a tr = (Ret (VBool false), tr1).
Proof.
  intros Hq Hd Hp.
  eapply get_pools_info_unavailable.
  - eapply get_routes_plan; eassumption.
  - reflexivity.
Qed.

(** X14. A hop without a [poolId] stops [get_pools_info] before the
    pools-info request: the result is [None], the exception is logged. *)
Theorem get_pools_info_missing_pool_id (self : RaydiumSwap) (i o : string)
    (a : Z) (js data bad : value) (pre post : list value) (ids : list string)
    (e : exn) (tr tr1 : trace) :
  _compute_routes self i o a tr = (Ret js, tr1) ->
  getitem js (VStr "data") = Ret data ->
  getitem data (VStr "routePlan") = Ret (VList (pre ++ bad :: post)) ->
  Forall2 (fun hop id => getitem hop (VStr "poolId") = Ret (VStr id)) pre ids ->
  getitem bad (VStr "poolId") = Raise e ->
  get_pools_info self i o a tr =
    (Ret VNone, Logged (ErrOperation "get_pools_info" e) :: tr1).
Proof.
  intros Hq Hd Hp Hids Hb.
  unfold get_pools_info, try_except.
  rewrite (bind_run _ _ _ _ _ (get_routes_plan _ _ _ _ _ _ _ _ _ Hq Hd Hp)).
  assert (Ht : truthy (VList (pre ++ bad :: post)) = true)
    by (destruct pre; reflexivity).
  rewrite Ht. unfold bind at 1 2. unfold lift. simpl.
  rewrite (collect_pool_ids_stops _ _ _ _ _ _ Hids Hb). reflexivity.
Qed.

(** X15. When the pools-info response is accepted, [get_pools_info]
    returns its [data]; the run adds one request to the helper's trace
    and no log. *)
Theorem get_pools_info_returns_data (self : RaydiumSwap) (i o : string) (a : Z)
    (js data : value) (hops : list value) (ids : list string)
    (resp : Response) (pjs s pools : value) (tr tr1 : trace) :
  _compute_routes self i o a tr = (Ret js, tr1) ->
  getitem js (VStr "data") = Ret data ->
  getitem data (VStr "routePlan") = Ret (VList hops) ->
  hops <> [] ->
  Forall2 (fun hop id => getitem hop (VStr "poolId") = Ret (VStr id)) hops ids ->
  net tr1 (pools_request (String.concat ", " ids)) = Responded resp ->
  status_code resp = 200 ->
  json resp = Some pjs ->
  getitem pjs (VStr "success") = Ret s ->
  truthy s = true ->
  getitem pjs (VStr "data") = Ret pools ->
  get_pools_info self i o a tr =
    (Ret pools, Issued (pools_request (String.concat ", " ids)) :: tr1).
Proof.
  intros Hq Hd Hp Hne Hids Hn Hc Hj Hs Ht Hpd.
  rewrite (get_pools_info_after_routes _ _ _ _ _ _ _ _ _ _ Hq Hd Hp Hne Hids).
  unfold try_except, requests_get. unfold bind at 1 2.
  unfold pools_request in Hn. rewrite Hn.
  rewrite (response_json_accept _ _ _ _ Hc Hj Hs Ht).
  rewrite (getitem_str_truthy _ _ _ Hs). unfold_m. simpl.
  rewrite Hpd. reflexivity.
Qed.

(** X16. When the pools-info endpoint cannot be reached the result is
    [None]; when it answers with a status other than 200 the result is
    [False]. *)
Theorem get_pools_info_pools_failure (self : RaydiumSwap) (i o : string) (a : Z)
    (js data : value) (hops : list value) (ids : list string)
    (tr tr1 : trace) :
  _compute_routes self i o a tr = (Ret js, tr1) ->
  getitem js (VStr "data") = Ret data ->
  getitem data (VStr "routePlan") = Ret (VList hops) ->
  hops <> [] ->
  Forall2 (fun hop id => getitem hop (VStr "poolId") = Ret (VStr id)) hops ids ->
  (net tr1 (pools_request (String.concat ", " ids)) = Failed ->
   get_pools_info self i o a tr =
     (Ret VNone,
      Logged (ErrOperation "get_pools_info" RequestException)
        :: Issued (pools_request (String.concat ", " ids)) :: tr1)) /\
  (forall resp,
     net tr1 (pools_request (String.concat ", " ids)) = Responded resp ->
     status_code resp <> 200 ->
     get_pools_info self i o a tr =
       (Ret (VBool false),
        Logged (ErrStatusCode (status_code resp))
          :: Issued (pools_request (String.concat ", " ids)) :: tr1)).
Proof.
  intros Hq Hd Hp Hne Hids.
  rewrite (get_pools_info_after_routes _ _ _ _ _ _ _ _ _ _ Hq Hd Hp Hne Hids).
  unfold pools_request. split.
  - intros Hn. unfold try_except, requests_get. unfold bind at 1 2.
    rewrite Hn. reflexivity.
  - intros resp Hn Hc. unfold try_except, requests_get. unfold bind at 1 2.
    rewrite Hn. rewrite (response_json_status _ _ Hc). reflexivity.
Qed.

(** X17. Every run of [get_pools_info] returns, and issues the quote
    request followed by at most one pools-info request; both are GET
    requests. *)
Theorem get_pools_info_requests (self : RaydiumSwap) (i o : string) (a : Z)
    (tr : trace) :
  exists v tr',
    get_pools_info self i o a tr = (Ret v, tr') /\
    (issued tr' = quote_request self i o a :: issued tr \/
     exists ids_str,
       issued tr' =
         pools_request ids_str :: quote_request self i o a :: issued tr).
Proof.
  destruct (get_routes_returns self i o a tr) as (routes & tr1 & Hr & Hi).
  unfold get_pools_info, try_except. rewrite (bind_run _ _ _ _ _ Hr).
  destruct (truthy routes); simpl; [|unfold_m; eauto].
  unfold bind at 1. unfold lift at 1.
  destruct (py_iter routes) as [items|e]; [|unfold_m; eauto].
  unfold bind at 1. unfold lift at 1.
  destruct (collect_pool_ids items []) as [ids|e]; [|unfold_m; eauto].
  unfold bind at 1. unfold lift at 1.
  destruct (py_join ", " ids) as [ids_str|e]; [|unfold_m; eauto].
  unfold requests_get. unfold bind at 1 2.
  fold (pools_request ids_str).
  destruct (net tr1 (pools_request ids_str)) as [resp|].
  2:{ unfold_m. eexists _, _. split; [reflexivity|].
      simpl. rewrite Hi. eauto. }
  destruct (_response_json resp _) as [[w|e] tr2] eqn:Hj;
    apply response_json_issued in Hj; simpl in Hj; rewrite Hi in Hj.
  2:{ unfold_m. eexists _, _. split; [reflexivity|]. simpl. eauto. }
  destruct (negb (truthy w)); unfold_m.
  { eexists _, _. split; [reflexivity|]. eauto. }
  destruct (getitem w (VStr "data"));
    (eexists _, _; split; [reflexivity|]; simpl; eauto).
Qed.

(** ** Further properties of the RPC list *)

(** X18. When the RPC-list response is accepted, [get_rpcs] returns
    [data.rpcs]; the run is one request and no log. *)
Theorem get_rpcs_returns_list (self : RaydiumSwap) (resp : Response)
    (js s data rpcs : value) (tr : trace) :
  net tr rpcs_request = Responded resp ->
  status_code resp = 200 ->
  json resp = Some js ->
  getitem js (VStr "success") = Ret s ->
  truthy s = true ->
  getitem js (VStr "data") = Ret data ->
  getitem data (VStr "rpcs") = Ret rpcs ->
  get_rpcs self tr = (Ret rpcs, Issued rpcs_request :: tr).
Proof.
  unfold rpcs_request. intros Hn Hc Hj Hs Ht Hd Hr.
  unfold get_rpcs, try_except, requests_get. unfold bind at 1 2.
  rewrite Hn. rewrite (response_json_accept _ _ _ _ Hc Hj Hs Ht).
  rewrite (getitem_str_truthy _ _ _ Hs). unfold_m. simpl.
  rewrite Hd, Hr. reflexivity.
Qed.

(** X19. The failures of [get_rpcs]: an unreachable endpoint gives
    [None], a status other than 200 gives [False], a body that is not JSON
    gives [None], and an accepted envelope without [rpcs] gives [None]. *)
Theorem get_rpcs_failures (self : RaydiumSwap) (tr : trace) :
  (net tr rpcs_request = Failed ->
   get_rpcs self tr =
     (Ret VNone, Logged (ErrOperation "get_rpcs" RequestException)
                   :: Issued rpcs_request :: tr)) /\
  (forall resp,
     net tr rpcs_request = Responded resp ->
     status_code resp <> 200 ->
     get_rpcs self tr =
       (Ret (VBool false), Logged (ErrStatusCode (status_code resp))
                             :: Issued rpcs_request :: tr)) /\
  (forall resp,
     net tr rpcs_request = Responded resp ->
     status_code resp = 200 ->
     json resp = None ->
     get_rpcs self tr =
       (Ret VNone, Logged (ErrOperation "get_rpcs" JSONDecodeError)
                     :: Issued rpcs_request :: tr)) /\
  (forall resp js s data e,
     net tr rpcs_request = Responded resp ->
     status_code resp = 200 ->
     json resp = Some js ->
     getitem js (VStr "success") = Ret s ->
     truthy s = true ->
     getitem js (VStr "data") = Ret data ->
     getitem data (VStr "rpcs") = Raise e ->
     get_rpcs self tr =
       (Ret VNone, Logged (ErrOperation "get_rpcs" e)
                     :: Issued rpcs_request :: tr)).
Proof.
  unfold rpcs_request. repeat split.
  - intros Hn. unfold get_rpcs, try_except, requests_get. unfold bind at 1 2.
    rewrite Hn. reflexivity.
  - intros resp Hn Hc.
    unfold get_rpcs, try_except, requests_get. unfold bind at 1 2.
    rewrite Hn, (response_json_status _ _ Hc). reflexivity.
  - intros resp Hn Hc Hj.
    unfold get_rpcs, try_except, requests_get. unfold bind at 1 2.
    rewrite Hn.
    unfold _response_json, resp_json. rewrite Hc, Hj. reflexivity.
  - intros resp js s data e Hn Hc Hj Hs Ht Hd Hr.
    unfold get_rpcs, try_except, requests_get. unfold bind at 1 2.
    rewrite Hn.
    rewrite (response_json_accept _ _ _ _ Hc Hj Hs Ht).
    rewrite (getitem_str_truthy _ _ _ Hs). unfold_m. simpl.
    rewrite Hd, Hr. reflexivity.
Qed.

(** ** Further properties of the fee lookup *)

(** X20. Called with the tier alone, [_unit_price_micro_lamports] returns
    [data.default[tier]] of a successful auto-fee response; called with no
    argument it looks up tier ["h"].  The request carries no timeout. *)
Theorem unit_price_lookup (tier : string) (resp : Response)
    (js s data dflt fee : value) (tr : trace) :
  net tr auto_fee_request = Responded resp ->
  status_code resp = 200 ->
  json resp = Some js ->
  getitem js (VStr "success") = Ret s ->
  truthy s = true ->
  getitem js (VStr "data") = Ret data ->
  getitem data (VStr "default") = Ret dflt ->
  getitem dflt (VStr tier) = Ret fee ->
  _unit_price_micro_lamports [VStr tier] tr
    = (Ret fee, Issued auto_fee_request :: tr) /\
  (tier = "h" ->
   _unit_price_micro_lamports [] tr
     = (Ret fee, Issued auto_fee_request :: tr)) /\
  req_timeout auto_fee_request = None.
Proof.
  unfold auto_fee_request. intros Hn Hc Hj Hs Ht Hd Hf Hfee.
  assert (H : unit_price_body (VStr tier) tr =
              (Ret fee,
               Issued (mkRequest GET (DATA_BASE_URL ++ "/main/auto-fee")
                         None None None) :: tr)).
  { unfold unit_price_body, requests_get, resp_json. unfold_m.
    rewrite Hn, Hc, Hj. simpl. rewrite Hs, Ht, Hd, Hf, Hfee. reflexivity. }
  split; [exact H|]. split; [|reflexivity]. intros ->. exact H.
Qed.

(** X21. The failures of the fee lookup.  A status other than 200 and a
    falsy [success] give [False] without a log record; an unreachable
    endpoint, a body that is not JSON and an unknown tier raise out of the
    lookup, which has no handler of its own. *)
Theorem unit_price_failures (tier : string) (tr : trace) :
  (net tr auto_fee_request = Failed ->
   _unit_price_micro_lamports [VStr tier] tr
     = (Raise RequestException, Issued auto_fee_request :: tr)) /\
  (forall resp,
     net tr auto_fee_request = Responded resp ->
     status_code resp <> 200 ->
     _unit_price_micro_lamports [VStr tier] tr
       = (Ret (VBool false), Issued auto_fee_request :: tr)) /\
  (forall resp,
     net tr auto_fee_request = Responded resp ->
     status_code resp = 200 ->
     json resp = None ->
     _unit_price_micro_lamports [VStr tier] tr
       = (Raise JSONDecodeError, Issued auto_fee_request :: tr)) /\
  (forall resp js s,
     net tr auto_fee_request = Responded resp ->
     status_code resp = 200 ->
     json resp = Some js ->
     getitem js (VStr "success") = Ret s ->
     truthy s = false ->
     _unit_price_micro_lamports [VStr tier] tr
       = (Ret (VBool false), Issued auto_fee_request :: tr)) /\
  (forall resp js s data dflt e,
     net tr auto_fee_request = Responded resp ->
     status_code resp = 200 ->
     json resp = Some js ->
     getitem js (VStr "success") = Ret s ->
     truthy s = true ->
     getitem js (VStr "data") = Ret data ->
     getitem data (VStr "default") = Ret dflt ->
     getitem dflt (VStr tier) = Raise e ->
     _unit_price_micro_lamports [VStr tier] tr
       = (Raise e, Issued auto_fee_request :: tr)).
Proof.
  unfold auto_fee_request.
  unfold _unit_price_micro_lamports, unit_price_body, requests_get, resp_json.
  unfold_m. repeat split.
  - intros Hn. rewrite Hn. reflexivity.
  - intros resp Hn Hc. rewrite Hn. apply Z.eqb_neq in Hc. rewrite Hc. reflexivity.
  - intros resp Hn Hc Hj. rewrite Hn, Hc, Hj. reflexivity.
  - intros resp js s Hn Hc Hj Hs Ht. rewrite Hn, Hc, Hj. simpl.
    rewrite Hs, Ht. reflexivity.
  - intros resp js s data dflt e Hn Hc Hj Hs Ht Hd Hf He.
    rewrite Hn, Hc, Hj. simpl. rewrite Hs, Ht, Hd, Hf, He. reflexivity.
Qed.

(** ** Further properties of the response validation *)

(** X22. With status 200, a body that is not JSON makes [_response_json]
    raise [JSONDecodeError], and a decoded body from which [success]
    cannot be read (not an object, or an object without that key) makes it
    raise that exception; nothing is logged in either case. *)
Theorem response_json_malformed (resp : Response) (tr : trace) :
  status_code resp = 200 ->
  (json resp = None ->
   _response_json resp tr = (Raise JSONDecodeError, tr)) /\
  (forall js e,
     json resp = Some js ->
     getitem js (VStr "success") = Raise e ->
     _response_json resp tr = (Raise e, tr)).
Proof.
  intros Hc. unfold _response_json, resp_json. rewrite Hc. unfold_m. simpl.
  split.
  - intros Hj. rewrite Hj. reflexivity.
  - intros js e Hj Hs. rewrite Hj, Hs. reflexivity.
Qed.

(** X23. [_response_json] touches the trace only to log a rejection: it
    adds one log record exactly when it returns [False], and otherwise
    (envelope returned, or exception raised) leaves the trace as it was.
    It never issues a request. *)
Theorem response_json_effects (resp : Response) (r : res value)
    (tr tr' : trace) :
  _response_json resp tr = (r, tr') ->
  (r = Ret (VBool false) /\ exists l, tr' = Logged l :: tr) \/
  (r <> Ret (VBool false) /\ tr' = tr).
Proof.
  unfold _response_json, resp_json. unfold_m.
  destruct (negb (status_code resp =? 200)).
  { intros H. inversion H. left. eauto. }
  destruct (json resp) as [js|]; simpl.
  2:{ intros H. inversion H. right. split; [discriminate | reflexivity]. }
  destruct (getitem js (VStr "success")) as [s|] eqn:Hs; simpl.
  2:{ intros H. inversion H. right. split; [discriminate | reflexivity]. }
  destruct (negb (truthy s)).
  - destruct (getitem js (VStr "id")); simpl; intros H; inversion H.
    + left. eauto.
    + right. split; [discriminate | reflexivity].
  - intros H. inversion H. right. split; [|reflexivity].
    intros Hf. inversion Hf; subst. discriminate Hs.
Qed.

End Client.

(** ** Runs on the sample services *)

(** C1 at ceiling 0.1 and quote impact 0.15. *)
Lemma generate_transaction_price_impact_ceiling_witness :
  generate_transaction sample_quote_url sample_trx_url sample_data_url
    string sample_from_string (fun k => k) sample_ata (serve quote_high)
    default_client "mintA" "mintB" "wallet" 1000000000 []
  = (Ret (VBool false),
     [Logged (WarnPriceImpact (VFloat 0x1.3333333333333p-3%float)
                0x1.999999999999ap-4%float);
      Issued (quote_request sample_quote_url default_client
                "mintA" "mintB" 1000000000)]).
Proof.
  apply (generate_transaction_price_impact_ceiling
           sample_quote_url sample_trx_url sample_data_url
           string sample_from_string (fun k => k) sample_ata (serve quote_high)
           default_client "mintA" "mintB" "wallet" 1000000000
           "wallet" "mintA" "mintB" "wallet/mintA" "wallet/mintB"
           quote_high
           (VDict [("swapType", VStr "BaseIn");
                   ("inputAmount", VInt 1000000000);
                   ("outputAmount", VInt 8000000);
                   ("priceImpactPct", VFloat 0x1.3333333333333p-3%float);
                   ("routePlan",
                    VList [sample_hop "pool-1"; sample_hop "pool-2";
                           sample_hop "pool-1"])])
           (VFloat 0x1.3333333333333p-3%float) []);
    reflexivity.
Defined.

(** C2, where the code departs from it: the quote is under the ceiling
    and the auto-fee service cannot be reached.  The fee lookup call
    raises [TypeError] before any request; the run ends with [None], the
    quote request being the only one issued. *)
Theorem generate_transaction_fee_lookup_unreached :
  generate_transaction sample_quote_url sample_trx_url sample_data_url
    string sample_from_string (fun k => k) sample_ata (serve_once quote_low)
    default_client "mintA" "mintB" "wallet" 1000000000 []
  = (Ret VNone,
     [Logged (ErrOperation "generate_transaction" TypeError);
      Issued (quote_request sample_quote_url default_client
                "mintA" "mintB" 1000000000)]).
Proof. vm_compute. reflexivity. Qed.

(** C3 on a rejected quote. *)
Lemma quote_unavailable_returns_False_witness :
  fst (get_price sample_quote_url sample_float_of_str (serve sample_rejection)
         default_client "mintA" "mintB" 1000000000 []) = Ret (VBool false) /\
  fst (get_routes sample_quote_url (serve sample_rejection)
         default_client "mintA" "mintB" 1000000000 []) = Ret (VBool false) /\
  fst (get_pools_info sample_quote_url sample_data_url (serve sample_rejection)
         default_client "mintA" "mintB" 1000000000 []) = Ret (VBool false).
Proof.
  apply (quote_unavailable_returns_False sample_quote_url sample_data_url
           sample_float_of_str (serve sample_rejection)
           default_client "mintA" "mintB" 1000000000 []).
  right.
  exists (mkResponse 200 (Some sample_rejection)).
  exists [("id", VStr "q-2"); ("success", VBool false);
          ("msg", VStr "ROUTE_NOT_FOUND")].
  repeat split.
Defined.

(** C4 fails as stated: with a zero output amount no quotient comes
    back. *)
Lemma get_price_zero_output_counterexample :
  fst (get_price sample_quote_url sample_float_of_str (serve quote_zero_out)
         default_client "mintA" "mintB" 1000000000 []) = Ret VNone /\
  Ret VNone <> Ret (VFloat (PrimFloat.div 1000000000%float 0%float)).
Proof. split; [vm_compute; reflexivity | discriminate]. Qed.

(** C4 as amended, on 1_000_000_000 and 8_000_000. *)
Lemma get_price_is_quotient_witness :
  fst (get_price sample_quote_url sample_float_of_str (serve quote_high)
         default_client "mintA" "mintB" 1000000000 []) = Ret (VFloat 125%float).
Proof.
  destruct (get_price_is_quotient sample_quote_url sample_float_of_str
              (serve quote_high) default_client "mintA" "mintB" 1000000000
              quote_high
              (VDict [("swapType", VStr "BaseIn");
                      ("inputAmount", VInt 1000000000);
                      ("outputAmount", VInt 8000000);
                      ("priceImpactPct", VFloat 0x1.3333333333333p-3%float);
                      ("routePlan",
                       VList [sample_hop "pool-1"; sample_hop "pool-2";
                              sample_hop "pool-1"])])
              []
              [Logged (WarnPriceImpact (VFloat 0x1.3333333333333p-3%float)
                         0x1.999999999999ap-4%float);
               Issued (quote_request sample_quote_url default_client
                         "mintA" "mintB" 1000000000)]
              eq_refl eq_refl) as [_ H].
  rewrite (H eq_refl eq_refl). reflexivity.
Defined.

(** C5 fails as stated: an envelope with [success = false] and no [id]
    makes the helper raise instead of returning [False]. *)
Lemma response_json_missing_id_counterexample :
  _response_json (mkResponse 200 (Some (VDict [("success", VBool false)]))) []
  = (Raise KeyError, []).
Proof. reflexivity. Qed.

(** C5 as amended, on a 404 response and on a rejection with an [id]. *)
Lemma response_json_validation_witness :
  _response_json (mkResponse 404 None) []
    = (Ret (VBool false), [Logged (ErrStatusCode 404)]) /\
  _response_json (mkResponse 200 (Some sample_rejection)) []
    = (Ret (VBool false), [Logged (ErrUnsuccessful (VStr "q-2"))]).
Proof.
  split.
  - apply (proj1 (proj2 (response_json_validation
             sample_quote_url sample_trx_url sample_data_url
             string sample_from_string (fun k => k) sample_ata
             sample_float_of_str unreachable (mkResponse 404 None) []))).
    discriminate.
  - apply (proj1 (proj2 (proj2 (response_json_validation
             sample_quote_url sample_trx_url sample_data_url
             string sample_from_string (fun k => k) sample_ata
             sample_float_of_str unreachable
             (mkResponse 200 (Some sample_rejection)) [])))
           sample_rejection (VBool false) (VStr "q-2"));
      reflexivity.
Defined.

(** C6 on a three-hop plan that visits one pool twice. *)
Lemma get_pools_info_ids_witness :
  exists v tr',
    get_pools_info sample_quote_url sample_data_url (serve quote_high)
      default_client "mintA" "mintB" 1000000000 [] = (Ret v, tr') /\
    issued tr' =
      [pools_request sample_data_url "pool-1, pool-2, pool-1";
       quote_request sample_quote_url default_client "mintA" "mintB" 1000000000].
Proof.
  destruct (get_pools_info_ids sample_quote_url sample_data_url
              (serve quote_high) default_client "mintA" "mintB" 1000000000
              quote_high
              (VDict [("swapType", VStr "BaseIn");
                      ("inputAmount", VInt 1000000000);
                      ("outputAmount", VInt 8000000);
                      ("priceImpactPct", VFloat 0x1.3333333333333p-3%float);
                      ("routePlan",
                       VList [sample_hop "pool-1"; sample_hop "pool-2";
                              sample_hop "pool-1"])])
              [sample_hop "pool-1"; sample_hop "pool-2"; sample_hop "pool-1"]
              ["pool-1"; "pool-2"; "pool-1"]
              []
              [Logged (WarnPriceImpact (VFloat 0x1.3333333333333p-3%float)
                         0x1.999999999999ap-4%float);
               Issued (quote_request sample_quote_url default_client
                         "mintA" "mintB" 1000000000)]
              eq_refl eq_refl eq_refl)
    as (v & tr' & H & Hi & _).
  - discriminate.
  - repeat constructor.
  - exists v, tr'. split; [exact H | exact Hi].
Defined.

(** C7 at ceiling 0.1 and quote impact 0.15. *)
Lemma compute_routes_warns_and_returns_envelope_witness :
  _compute_routes sample_quote_url (serve quote_high)
    default_client "mintA" "mintB" 1000000000 []
  = (Ret quote_high,
     [Logged (WarnPriceImpact (VFloat 0x1.3333333333333p-3%float)
                0x1.999999999999ap-4%float);
      Issued (quote_request sample_quote_url default_client
                "mintA" "mintB" 1000000000)]).
Proof.
  apply (compute_routes_warns_and_returns_envelope sample_quote_url
           (serve quote_high) default_client "mintA" "mintB" 1000000000
           (mkResponse 200 (Some quote_high)) quote_high (VBool true)
           (VDict [("swapType", VStr "BaseIn");
                   ("inputAmount", VInt 1000000000);
                   ("outputAmount", VInt 8000000);
                   ("priceImpactPct", VFloat 0x1.3333333333333p-3%float);
                   ("routePlan",
                    VList [sample_hop "pool-1"; sample_hop "pool-2";
                           sample_hop "pool-1"])])
           (VFloat 0x1.3333333333333p-3%float) []);
    reflexivity.
Defined.

(** C9 fails as stated.  With the quote service down [get_routes]
    returns [False]; with an empty route plan it returns the empty list.
    Both are falsy, and [get_pools_info], which tests [not routes],
    returns [False] in both runs.  A quote with a zero input amount has
    the price 0.0, falsy like the [False] of a failed run. *)
Lemma failure_indistinguishable_counterexample :
  fst (get_routes sample_quote_url unreachable
         default_client "mintA" "mintB" 1000000000 []) = Ret (VBool false) /\
  fst (get_routes sample_quote_url (serve quote_empty_plan)
         default_client "mintA" "mintB" 1000000000 []) = Ret (VList []) /\
  truthy (VList []) = truthy (VBool false) /\
  fst (get_pools_info sample_quote_url sample_data_url unreachable
         default_client "mintA" "mintB" 1000000000 []) = Ret (VBool false) /\
  fst (get_pools_info sample_quote_url sample_data_url (serve quote_empty_plan)
         default_client "mintA" "mintB" 1000000000 []) = Ret (VBool false) /\
  fst (get_price sample_quote_url sample_float_of_str unreachable
         default_client "mintA" "mintB" 1000000000 []) = Ret (VBool false) /\
  fst (get_price sample_quote_url sample_float_of_str (serve quote_empty_plan)
         default_client "mintA" "mintB" 1000000000 []) = Ret (VFloat 0%float) /\
  truthy (VFloat 0%float) = truthy (VBool false).
Proof. repeat split; vm_compute; reflexivity. Qed.

(** C9 as amended, with the quote service down. *)
Lemma compute_routes_failure_is_falsy_witness :
  exists v tr',
    _compute_routes sample_quote_url unreachable
      default_client "mintA" "mintB" 1000000000 [] = (Ret v, tr') /\
    v = VNone.
Proof.
  destruct (compute_routes_failure_is_falsy sample_quote_url unreachable
              default_client "mintA" "mintB" 1000000000 [])
    as (v & tr' & H & _ & Hf & _).
  exists v, tr'. split; [exact H | apply Hf; reflexivity].
Defined.

(** C10 on a quote with output amount 0. *)
Lemma get_price_zero_output_witness :
  fst (get_price sample_quote_url sample_float_of_str (serve quote_zero_out)
         default_client "mintA" "mintB" 1000000000 []) = Ret VNone.
Proof.
  destruct (get_price_zero_output sample_quote_url sample_float_of_str
              (serve quote_zero_out) default_client "mintA" "mintB" 1000000000
              quote_zero_out
              (VDict [("swapType", VStr "BaseIn");
                      ("inputAmount", VInt 1000000000);
                      ("outputAmount", VInt 0);
                      ("priceImpactPct", VFloat 0x1.47ae147ae147bp-7%float);
                      ("routePlan", VList [sample_hop "pool-1"])])
              (VInt 0) 0%float
              []
              [Issued (quote_request sample_quote_url default_client
                         "mintA" "mintB" 1000000000)]
              eq_refl eq_refl eq_refl eq_refl eq_refl) as (e & H & _).
  rewrite H. reflexivity.
Defined.

(** ** Further runs on the sample services *)

(** X2 on a wallet text that does not parse. *)
Lemma generate_transaction_bad_address_witness :
  generate_transaction sample_quote_url sample_trx_url sample_data_url
    string sample_from_string (fun k => k) sample_ata (serve quote_low)
    default_client "mintA" "mintB" "" 1000000000 []
  = (Ret VNone, [Logged (ErrOperation "generate_transaction" ValueError)]).
Proof.
  apply (generate_transaction_bad_address
           sample_quote_url sample_trx_url sample_data_url
           string sample_from_string (fun k => k) sample_ata (serve quote_low)
           default_client "mintA" "mintB" "" 1000000000 ValueError []).
  left. reflexivity.
Defined.

(** X3 with the quote service down. *)
Lemma generate_transaction_quote_unavailable_witness :
  generate_transaction sample_quote_url sample_trx_url sample_data_url
    string sample_from_string (fun k => k) sample_ata unreachable
    default_client "mintA" "mintB" "wallet" 1000000000 []
  = (Ret (VBool false),
     [Logged (ErrOperation "_compute_routes" RequestException);
      Issued (quote_request sample_quote_url default_client
                "mintA" "mintB" 1000000000)]).
Proof.
  apply (generate_transaction_quote_unavailable
           sample_quote_url sample_trx_url sample_data_url
           string sample_from_string (fun k => k) sample_ata unreachable
           default_client "mintA" "mintB" "wallet" 1000000000
           "wallet" "mintA" "mintB" "wallet/mintA" "wallet/mintB" VNone []);
    reflexivity.
Defined.

(** X4 on a quote under the ceiling. *)
Lemma generate_transaction_with_quote_witness :
  exists data pi,
    getitem quote_low (VStr "data") = Ret data /\
    getitem data (VStr "priceImpactPct") = Ret pi /\
    py_gt pi (_price_impact_max default_client) = Ret false /\
    generate_transaction sample_quote_url sample_trx_url sample_data_url
      string sample_from_string (fun k => k) sample_ata (serve_once quote_low)
      default_client "mintA" "mintB" "wallet" 1000000000 []
    = (Ret VNone,
       [Logged (ErrOperation "generate_transaction" TypeError);
        Issued (quote_request sample_quote_url default_client
                  "mintA" "mintB" 1000000000)]).
Proof.
  destruct (generate_transaction_with_quote
              sample_quote_url sample_trx_url sample_data_url
              string sample_from_string (fun k => k) sample_ata
              (serve_once quote_low)
              default_client "mintA" "mintB" "wallet" 1000000000
              "wallet" "mintA" "mintB" "wallet/mintA" "wallet/mintB"
              quote_low []
              [Issued (quote_request sample_quote_url default_client
                         "mintA" "mintB" 1000000000)]
              eq_refl eq_refl eq_refl eq_refl eq_refl eq_refl eq_refl)
    as (data & pi & above & Hd & Hp & Hg & H).
  exists data, pi.
  assert (Ha : above = false).
  { vm_compute in Hd. inversion Hd; subst data.
    vm_compute in Hp. inversion Hp; subst pi.
    vm_compute in Hg. inversion Hg. reflexivity. }
  subst above. auto.
Defined.

(** X6 on a quote under the ceiling. *)
Lemma compute_routes_silent_below_ceiling_witness :
  _compute_routes sample_quote_url (serve quote_low)
    default_client "mintA" "mintB" 1000000000 []
  = (Ret quote_low,
     [Issued (quote_request sample_quote_url default_client
                "mintA" "mintB" 1000000000)]).
Proof.
  eapply (compute_routes_silent_below_ceiling sample_quote_url
            (serve quote_low) default_client "mintA" "mintB" 1000000000
            (mkResponse 200 (Some quote_low)) quote_low (VBool true));
    reflexivity.
Defined.

(** X7 on a quote whose impact is the default ceiling. *)
Lemma compute_routes_at_ceiling_witness :
  _compute_routes sample_quote_url (serve quote_at_ceiling)
    default_client "mintA" "mintB" 1000000000 []
  = (Ret quote_at_ceiling,
     [Issued (quote_request sample_quote_url default_client
                "mintA" "mintB" 1000000000)]).
Proof.
  eapply (compute_routes_at_ceiling sample_quote_url
            (serve quote_at_ceiling) default_client "mintA" "mintB" 1000000000
            (mkResponse 200 (Some quote_at_ceiling)) quote_at_ceiling
            (VBool true));
    reflexivity.
Defined.

(** X8 on a body that is not JSON. *)
Lemma compute_routes_malformed_witness :
  _compute_routes sample_quote_url serve_garbage
    default_client "mintA" "mintB" 1000000000 []
  = (Ret VNone,
     [Logged (ErrOperation "_compute_routes" JSONDecodeError);
      Issued (quote_request sample_quote_url default_client
                "mintA" "mintB" 1000000000)]).
Proof.
  apply (compute_routes_malformed sample_quote_url serve_garbage
           default_client "mintA" "mintB" 1000000000
           (mkResponse 200 None) JSONDecodeError []);
    [reflexivity | reflexivity | left; split; reflexivity].
Defined.

(** X10 on a quote without amounts. *)
Lemma get_price_amount_errors_witness :
  get_price sample_quote_url sample_float_of_str (serve quote_bare)
    default_client "mintA" "mintB" 1000000000 []
  = (Ret VNone,
     [Logged (ErrOperation "get_price" KeyError);
      Issued (quote_request sample_quote_url default_client
                "mintA" "mintB" 1000000000)]).
Proof.
  eapply (get_price_amount_errors sample_quote_url sample_float_of_str
            (serve quote_bare) default_client "mintA" "mintB" 1000000000
            quote_bare);
    [reflexivity | reflexivity | left; reflexivity].
Defined.

(** X11 on a quote without a route plan. *)
Lemma get_routes_plan_or_None_witness :
  get_routes sample_quote_url (serve quote_no_plan)
    default_client "mintA" "mintB" 1000000000 []
  = (Ret VNone,
     [Logged (ErrOperation "get_routes" KeyError);
      Issued (quote_request sample_quote_url default_client
                "mintA" "mintB" 1000000000)]).
Proof.
  edestruct (get_routes_plan_or_None sample_quote_url (serve quote_no_plan)
               default_client "mintA" "mintB" 1000000000 quote_no_plan)
    as [_ H]; [reflexivity | reflexivity |].
  apply H. reflexivity.
Defined.

(** X12 with the quote service down. *)
Lemma helper_failure_becomes_False_witness :
  get_price sample_quote_url sample_float_of_str unreachable
    default_client "mintA" "mintB" 1000000000 []
  = (Ret (VBool false),
     [Logged (ErrOperation "_compute_routes" RequestException);
      Issued (quote_request sample_quote_url default_client
                "mintA" "mintB" 1000000000)]) /\
  get_routes sample_quote_url unreachable
    default_client "mintA" "mintB" 1000000000 []
  = (Ret (VBool false),
     [Logged (ErrOperation "_compute_routes" RequestException);
      Issued (quote_request sample_quote_url default_client
                "mintA" "mintB" 1000000000)]) /\
  get_pools_info sample_quote_url sample_data_url unreachable
    default_client "mintA" "mintB" 1000000000 []
  = (Ret (VBool false),
     [Logged (ErrOperation "_compute_routes" RequestException);
      Issued (quote_request sample_quote_url default_client
                "mintA" "mintB" 1000000000)]).
Proof.
  apply (helper_failure_becomes_False sample_quote_url sample_data_url
           sample_float_of_str unreachable
           default_client "mintA" "mintB" 1000000000 VNone []);
    reflexivity.
Defined.

(** X13 on an empty route plan. *)
Lemma get_pools_info_empty_plan_witness :
  get_pools_info sample_quote_url sample_data_url (serve quote_empty_plan)
    default_client "mintA" "mintB" 1000000000 []
  = (Ret (VBool false),
     [Issued (quote_request sample_quote_url default_client
                "mintA" "mintB" 1000000000)]).
Proof.
  eapply (get_pools_info_empty_plan sample_quote_url sample_data_url
            (serve quote_empty_plan) default_client "mintA" "mintB" 1000000000
            quote_empty_plan);
    reflexivity.
Defined.

(** X14 on a plan whose second hop names no pool. *)
Lemma get_pools_info_missing_pool_id_witness :
  get_pools_info sample_quote_url sample_data_url (serve quote_bare)
    default_client "mintA" "mintB" 1000000000 []
  = (Ret VNone,
     [Logged (ErrOperation "get_pools_info" KeyError);
      Issued (quote_request sample_quote_url default_client
                "mintA" "mintB" 1000000000)]).
Proof.
  eapply (get_pools_info_missing_pool_id sample_quote_url sample_data_url
            (serve quote_bare) default_client "mintA" "mintB" 1000000000
            quote_bare
            (VDict [("priceImpactPct", VInt 0);
                    ("routePlan",
                     VList [sample_hop "pool-1"; VDict [("feeRate", VInt 1)]])])
            (VDict [("feeRate", VInt 1)])
            [sample_hop "pool-1"] [] ["pool-1"] KeyError);
    first [reflexivity | repeat constructor].
Defined.

(** X15 on a three-hop plan answered with the pool metadata. *)
Lemma get_pools_info_returns_data_witness :
  fst (get_pools_info sample_quote_url sample_data_url
         (serve_then quote_high sample_pools)
         default_client "mintA" "mintB" 1000000000 [])
  = getitem sample_pools (VStr "data").
Proof.
  erewrite (get_pools_info_returns_data sample_quote_url sample_data_url
              (serve_then quote_high sample_pools)
              default_client "mintA" "mintB" 1000000000 quote_high
              (VDict [("swapType", VStr "BaseIn");
                      ("inputAmount", VInt 1000000000);
                      ("outputAmount", VInt 8000000);
                      ("priceImpactPct", VFloat 0x1.3333333333333p-3%float);
                      ("routePlan",
                       VList [sample_hop "pool-1"; sample_hop "pool-2";
                              sample_hop "pool-1"])])
              [sample_hop "pool-1"; sample_hop "pool-2"; sample_hop "pool-1"]
              ["pool-1"; "pool-2"; "pool-1"]
              (mkResponse 200 (Some sample_pools)) sample_pools (VBool true));
    first [reflexivity | discriminate | repeat constructor].
Defined.

(** X16 with the data service down after the quote. *)
Lemma get_pools_info_pools_failure_witness :
  fst (get_pools_info sample_quote_url sample_data_url (serve_once quote_high)
         default_client "mintA" "mintB" 1000000000 []) = Ret VNone /\
  fst (get_pools_info sample_quote_url sample_data_url
         (serve_then_status quote_high 503)
         default_client "mintA" "mintB" 1000000000 []) = Ret (VBool false).
Proof.
  split.
  - edestruct (get_pools_info_pools_failure sample_quote_url sample_data_url
                 (serve_once quote_high)
                 default_client "mintA" "mintB" 1000000000 quote_high
                 (VDict [("swapType", VStr "BaseIn");
                      ("inputAmount", VInt 1000000000);
                      ("outputAmount", VInt 8000000);
                      ("priceImpactPct", VFloat 0x1.3333333333333p-3%float);
                      ("routePlan",
                       VList [sample_hop "pool-1"; sample_hop "pool-2";
                              sample_hop "pool-1"])])
                 [sample_hop "pool-1"; sample_hop "pool-2"; sample_hop "pool-1"]
                 ["pool-1"; "pool-2"; "pool-1"]
                 []
                 [Logged (WarnPriceImpact (VFloat 0x1.3333333333333p-3%float)
                            0x1.999999999999ap-4%float);
                  Issued (quote_request sample_quote_url default_client
                            "mintA" "mintB" 1000000000)])
      as [H _];
      [reflexivity | reflexivity | reflexivity | discriminate
      | repeat constructor |].
    rewrite H; reflexivity.
  - edestruct (get_pools_info_pools_failure sample_quote_url sample_data_url
                 (serve_then_status quote_high 503)
                 default_client "mintA" "mintB" 1000000000 quote_high
                 (VDict [("swapType", VStr "BaseIn");
                      ("inputAmount", VInt 1000000000);
                      ("outputAmount", VInt 8000000);
                      ("priceImpactPct", VFloat 0x1.3333333333333p-3%float);
                      ("routePlan",
                       VList [sample_hop "pool-1"; sample_hop "pool-2";
                              sample_hop "pool-1"])])
                 [sample_hop "pool-1"; sample_hop "pool-2"; sample_hop "pool-1"]
                 ["pool-1"; "pool-2"; "pool-1"]
                 []
                 [Logged (WarnPriceImpact (VFloat 0x1.3333333333333p-3%float)
                            0x1.999999999999ap-4%float);
                  Issued (quote_request sample_quote_url default_client
                            "mintA" "mintB" 1000000000)])
      as [_ H];
      [reflexivity | reflexivity | reflexivity | discriminate
      | repeat constructor |].
    rewrite (H (mkResponse 503 None)); [reflexivity | reflexivity | discriminate].
Defined.

(** X18 on the sample RPC list. *)
Lemma get_rpcs_returns_list_witness :
  get_rpcs sample_data_url (serve sample_rpcs) default_client []
  = (Ret (VList [VDict [("url", VStr "https://rpc.example/");
                        ("batch", VBool true);
                        ("name", VStr "Triton");
                        ("weight", VInt 100)]]),
     [Issued (rpcs_request sample_data_url)]).
Proof.
  eapply (get_rpcs_returns_list sample_data_url (serve sample_rpcs)
            default_client (mkResponse 200 (Some sample_rpcs)) sample_rpcs
            (VBool true));
    reflexivity.
Defined.

(** X19 with the data service down. *)
Lemma get_rpcs_failures_witness :
  get_rpcs sample_data_url unreachable default_client []
  = (Ret VNone,
     [Logged (ErrOperation "get_rpcs" RequestException);
      Issued (rpcs_request sample_data_url)]).
Proof.
  apply (proj1 (get_rpcs_failures sample_data_url unreachable default_client [])).
  reflexivity.
Defined.

(** X20 on the sample fee tiers. *)
Lemma unit_price_lookup_witness :
  _unit_price_micro_lamports sample_data_url (serve sample_fees) [VStr "h"] []
  = (Ret (VInt 18912), [Issued (auto_fee_request sample_data_url)]).
Proof.
  edestruct (unit_price_lookup sample_data_url (serve sample_fees) "h"
               (mkResponse 200 (Some sample_fees)) sample_fees (VBool true))
    as [H _];
    [reflexivity | reflexivity | reflexivity | reflexivity | reflexivity
    | reflexivity | reflexivity | reflexivity |].
  exact H.
Defined.

(** X21 with the data service down. *)
Lemma unit_price_failures_witness :
  _unit_price_micro_lamports sample_data_url unreachable [VStr "h"] []
  = (Raise RequestException, [Issued (auto_fee_request sample_data_url)]).
Proof.
  apply (proj1 (unit_price_failures sample_data_url unreachable "h" [])).
  reflexivity.
Defined.

(** X22 on a body that is not JSON. *)
Lemma response_json_malformed_witness :
  _response_json (mkResponse 200 None) [] = (Raise JSONDecodeError, []).
Proof.
  apply (proj1 (response_json_malformed (mkResponse 200 None) [] eq_refl)).
  reflexivity.
Defined.

(** X23 on a 500 response. *)
Lemma response_json_effects_witness :
  exists l, snd (_response_json (mkResponse 500 None) []) = [Logged l].
Proof.
  destruct (response_json_effects (mkResponse 500 None)
              (Ret (VBool false)) [] [Logged (ErrStatusCode 500)] eq_refl)
    as [[_ [l H]] | [H _]].
  - exists l. exact H.
  - exfalso. apply H. reflexivity.
Defined.
